(** * Bill reconciliation between a spreadsheet export and QuickBooks

    A shallow embedding of the Python sources [models.py], [comparer.py],
    [qb_gateway.py], [excel_reader.py] and the write-back loop of [main.py],
    together with the properties of the reconciliation engine and of its
    adapters.

    Conventions of the embedding.
    - A Python [str] is a [string]; its characters are read as code points
      below 256.  An [Optional[str]] field is an [option string], so that
      [None] and the empty string stay apart, as they do in the comparisons
      of the source.
    - A Python [dict] keyed by strings is a [gmap string _]; a [set] of
      strings is a [gset string].  The order in which Python iterates over a
      set is not specified; it is an explicit argument ([set_order]).
    - Exceptions are values of [exn], and a call that may raise returns a
      [result].
    - [float] is an interface ([PyFloat]): the sources only render, test and
      parse amounts, and never compute with them. *)

From Stdlib Require Import Ascii.
From stdpp Require Import gmap strings list fin_maps pretty.

Local Open Scope Z_scope.

(** ** Python values and helpers *)

Inductive exn :=
  | RuntimeError (msg : string)
  | ValueError (msg : string)
  | IndexError (msg : string)
  | AttributeError (msg : string)
  | ParseError (msg : string)
  | ComError (msg : string).

Inductive result (A : Type) :=
  | Ok (a : A)
  | Raise (e : exn).
Arguments Ok {A} a.
Arguments Raise {A} e.

Definition bind {A B} (r : result A) (k : A → result B) : result B :=
  match r with
  | Ok a => k a
  | Raise e => Raise e
  end.

Notation "x ←! r ; k" := (bind r (λ x, k))
  (at level 20, r at level 100, k at level 200, only parsing, right associativity).

Definition is_Ok {A} (r : result A) : Prop := ∃ a, r = Ok a.

(** The operations of [float] the sources use. *)
Class PyFloat (F : Type) := {
  float_str : F → string;              (* str(x), repr(x) *)
  float_fmt2 : F → string;             (* format(x, ".2f") *)
  float_bool : F → bool;               (* bool(x), that is x != 0 *)
  float_le0 : F → bool;                (* x <= 0 *)
  float_of_str : string → option F;    (* float(s); None is ValueError *)
  float_zero : F;                      (* 0.0 *)
}.

Module py.

(** [bool(s)] for a string. *)
Definition str_bool (s : string) : bool :=
  match s with
  | EmptyString => false
  | String _ _ => true
  end.

(** [bool(x)] for an optional string: [None] and [""] are falsy. *)
Definition opt_bool (o : option string) : bool :=
  match o with
  | Some s => str_bool s
  | None => false
  end.

(** [x or ""] for an optional string. *)
Definition or_empty (o : option string) : string :=
  match o with
  | Some s => s
  | None => ""
  end.

(** [sep.join(l)]. *)
Fixpoint join (sep : string) (l : list string) : string :=
  match l with
  | [] => ""
  | [x] => x
  | x :: l' => x +:+ sep +:+ join sep l'
  end.

(** [s.replace(c, by)] for a one-character pattern [c]. *)
Fixpoint replace (c : ascii) (by_ : string) (s : string) : string :=
  match s with
  | EmptyString => ""
  | String a s' =>
      if bool_decide (a = c) then by_ +:+ replace c by_ s'
      else String a (replace c by_ s')
  end.

(** [str.isspace] on one character (code points below 256). *)
Definition is_space (a : ascii) : bool :=
  let n := nat_of_ascii a in
  bool_decide (9 ≤ n ≤ 13 ∨ 28 ≤ n ≤ 32 ∨ n = 133 ∨ n = 160)%nat.

Fixpoint lstrip (s : string) : string :=
  match s with
  | EmptyString => ""
  | String a s' => if is_space a then lstrip s' else s
  end.

(** [s.strip()]. *)
Definition strip (s : string) : string :=
  String.rev (lstrip (String.rev (lstrip s))).

(** [s.split(" ")[0]]: the text before the first space. *)
Fixpoint before_space (s : string) : string :=
  match s with
  | EmptyString => ""
  | String a s' =>
      if bool_decide (a = " "%char) then "" else String a (before_space s')
  end.

Definition hex_digit (n : nat) : ascii :=
  match n with
  | 0 => "0" | 1 => "1" | 2 => "2" | 3 => "3" | 4 => "4" | 5 => "5"
  | 6 => "6" | 7 => "7" | 8 => "8" | 9 => "9" | 10 => "a" | 11 => "b"
  | 12 => "c" | 13 => "d" | 14 => "e" | _ => "f"
  end%nat%char.

Definition dquote : ascii := "034"%char.
Definition squote : ascii := "'"%char.
Definition backslash : ascii := "\"%char.

Fixpoint contains (c : ascii) (s : string) : bool :=
  match s with
  | EmptyString => false
  | String a s' => bool_decide (a = c) || contains c s'
  end.

(** One character of [repr(s)], inside the quote [q]. *)
Definition repr_char (q a : ascii) : string :=
  let n := nat_of_ascii a in
  if bool_decide (a = q) || bool_decide (a = backslash)
  then String backslash (String a "")
  else if bool_decide (n = 9%nat) then String backslash "t"
  else if bool_decide (n = 10%nat) then String backslash "n"
  else if bool_decide (n = 13%nat) then String backslash "r"
  else if bool_decide (n < 32 ∨ 127 ≤ n ≤ 160 ∨ n = 173)%nat
  then String backslash
         (String "x" (String (hex_digit (n / 16)) (String (hex_digit (n mod 16)) "")))
  else String a "".

Fixpoint repr_body (q : ascii) (s : string) : string :=
  match s with
  | EmptyString => ""
  | String a s' => repr_char q a +:+ repr_body q s'
  end.

(** [repr(s)] for a string: single quotes, unless the text has a single
    quote and no double quote. *)
Definition repr_str (s : string) : string :=
  let q := if contains squote s && negb (contains dquote s)
           then dquote else squote in
  String q (repr_body q s +:+ String q "").

Definition repr_opt_str (o : option string) : string :=
  match o with
  | Some s => repr_str s
  | None => "None"
  end.

Definition repr_bool (b : bool) : string :=
  if b then "True" else "False".

(** [str(x)] for an optional float. *)
Definition str_opt_float `{PyFloat F} (o : option F) : string :=
  match o with
  | Some x => float_str x
  | None => "None"
  end.

(** [int(s)] on ASCII text: blanks around, a sign, then digits, single
    underscores allowed between digits.  [None] is ValueError. *)
Fixpoint int_digits (seen_digit after_us : bool) (acc : Z) (s : string)
  : option Z :=
  match s with
  | EmptyString => if seen_digit && negb after_us then Some acc else None
  | String a s' =>
      match Ascii.is_nat a with
      | Some d => int_digits true false (10 * acc + Z.of_nat d) s'
      | None =>
          if bool_decide (a = "_"%char) && seen_digit && negb after_us
          then int_digits true true acc s'
          else None
      end
  end.

Definition int (s : string) : option Z :=
  match strip s with
  | String "-" s' => Z.opp <$> int_digits false false 0 s'
  | String "+" s' => int_digits false false 0 s'
  | s' => int_digits false false 0 s'
  end.

End py.

(** Whole-number floats.  On the floats whose value is an integer below
    10^16 in magnitude, CPython renders [x] as the integer followed by [.0],
    [format(x, ".2f")] as the integer followed by [.00], and [bool] and
    [<= 0] are those of the integer.  The carrier has no fractional values,
    so [float_of_str] accepts only text of the shape [digits] or
    [digits.000]; the closed examples below stay within that shape. *)
Module whole_float.

Fixpoint all_zeros (s : string) : bool :=
  match s with
  | EmptyString => true
  | String a s' => bool_decide (a = "0"%char) && all_zeros s'
  end.

Fixpoint digits (seen : bool) (acc : Z) (s : string) : option Z :=
  match s with
  | EmptyString => if seen then Some acc else None
  | String a s' =>
      match Ascii.is_nat a with
      | Some d => digits true (10 * acc + Z.of_nat d) s'
      | None =>
          if bool_decide (a = "."%char) && seen && all_zeros s'
          then Some acc else None
      end
  end.

Definition of_str (s : string) : option Z :=
  match py.strip s with
  | String "-" s' => Z.opp <$> digits false 0 s'
  | String "+" s' => digits false 0 s'
  | s' => digits false 0 s'
  end.

#[export] Instance whole : PyFloat Z := {|
  float_str x := pretty x +:+ ".0";
  float_fmt2 x := pretty x +:+ ".00";
  float_bool x := bool_decide (x ≠ 0);
  float_le0 x := bool_decide (x ≤ 0);
  float_of_str := of_str;
  float_zero := 0;
|}.

End whole_float.

(** ** models.py

    The module defines [BillRecord], [Conflict] and [ComparisonReport] twice.
    Python executes the class statements in order and each one rebinds its
    name, so the classes every importer gets are the second ones; the records
    below are those.  The first [ComparisonReport], with its [matched]
    bucket and its [to_json] method, is kept as [ComparisonReport_v1]. *)
Module models.

Record BillRecord (F : Type) := mkBillRecord {
  record_id : string;
  supplier : option string;
  bank_date : option string;
  chart_account : option string;
  amount : option F;
  memo : option string;
  line_memo : option string;
  source : string;
  added_to_qb : bool;
}.
Arguments mkBillRecord {F} _ _ _ _ _ _ _ _ _.
Arguments record_id {F} _.
Arguments supplier {F} _.
Arguments bank_date {F} _.
Arguments chart_account {F} _.
Arguments amount {F} _.
Arguments memo {F} _.
Arguments line_memo {F} _.
Arguments source {F} _.
Arguments added_to_qb {F} _.

(** [bill.added_to_qb = b]. *)
Definition set_added_to_qb {F} (b : bool) (bill : BillRecord F) : BillRecord F :=
  mkBillRecord (record_id bill) (supplier bill) (bank_date bill)
    (chart_account bill) (amount bill) (memo bill) (line_memo bill)
    (source bill) b.

(** [str(bill)]: the second [BillRecord] has no [__repr__] of its own, so
    this is the one [@dataclass] generates. *)
Definition BillRecord_repr `{PyFloat F} (bill : BillRecord F) : string :=
  "BillRecord(record_id=" +:+ py.repr_str (record_id bill)
  +:+ ", supplier=" +:+ py.repr_opt_str (supplier bill)
  +:+ ", bank_date=" +:+ py.repr_opt_str (bank_date bill)
  +:+ ", chart_account=" +:+ py.repr_opt_str (chart_account bill)
  +:+ ", amount=" +:+ py.str_opt_float (amount bill)
  +:+ ", memo=" +:+ py.repr_opt_str (memo bill)
  +:+ ", line_memo=" +:+ py.repr_opt_str (line_memo bill)
  +:+ ", source=" +:+ py.repr_str (source bill)
  +:+ ", added_to_qb=" +:+ py.repr_bool (added_to_qb bill) +:+ ")".

Record Conflict := mkConflict {
  Conflict_record_id : string;
  excel_name : option string;
  qb_name : option string;
  reason : string;
}.

Record ComparisonReport (F : Type) := mkComparisonReport {
  excel_only : list (BillRecord F);
  qb_only : list (BillRecord F);
  conflicts : list Conflict;
}.
Arguments mkComparisonReport {F} _ _ _.
Arguments excel_only {F} _.
Arguments qb_only {F} _.
Arguments conflicts {F} _.

(** *** The first [ComparisonReport] and [to_json] *)

(** The value [json.dumps] is given, and [json.loads] gives back. *)
#[local] Unset Elimination Schemes.
Inductive json (F : Type) :=
  | JNull
  | JBool (b : bool)
  | JInt (n : Z)
  | JFloat (x : F)
  | JStr (s : string)
  | JList (l : list (json F))
  | JDict (d : list (string * json F)).
#[local] Set Elimination Schemes.
Arguments JNull {F}.
Arguments JBool {F} b.
Arguments JInt {F} n.
Arguments JFloat {F} x.
Arguments JStr {F} s.
Arguments JList {F} l.
Arguments JDict {F} d.

Definition json_opt_str {F} (o : option string) : json F :=
  match o with
  | Some s => JStr s
  | None => JNull
  end.

Definition json_opt_float {F} (o : option F) : json F :=
  match o with
  | Some x => JFloat x
  | None => JNull
  end.

(** [dataclasses.asdict] works on any dataclass instance. *)
Class Dataclass (F A : Type) := asdict : A → json F.

#[export] Instance BillRecord_dataclass {F} : Dataclass F (BillRecord F) :=
  λ b, JDict [("record_id", JStr (record_id b));
              ("supplier", json_opt_str (supplier b));
              ("bank_date", json_opt_str (bank_date b));
              ("chart_account", json_opt_str (chart_account b));
              ("amount", json_opt_float (amount b));
              ("memo", json_opt_str (memo b));
              ("line_memo", json_opt_str (line_memo b));
              ("source", JStr (source b));
              ("added_to_qb", JBool (added_to_qb b))].

#[export] Instance Conflict_dataclass {F} : Dataclass F Conflict :=
  λ c, JDict [("record_id", JStr (Conflict_record_id c));
              ("excel_name", json_opt_str (excel_name c));
              ("qb_name", json_opt_str (qb_name c));
              ("reason", JStr (reason c))].

(** The first [ComparisonReport]: four buckets.  [B] and [C] are the
    classes of its records and conflicts. *)
Record ComparisonReport_v1 (B C : Type) := mkComparisonReport_v1 {
  excel_only_v1 : list B;
  qb_only_v1 : list B;
  conflicts_v1 : list C;
  matched_v1 : list B;
}.
Arguments mkComparisonReport_v1 {B C} _ _ _ _.
Arguments excel_only_v1 {B C} _.
Arguments qb_only_v1 {B C} _.
Arguments conflicts_v1 {B C} _.
Arguments matched_v1 {B C} _.

(** The dictionary [data] that [ComparisonReport.to_json] builds and hands
    to [json.dumps]. *)
Definition to_json_data {F B C} `{!Dataclass F B, !Dataclass F C}
    (self : ComparisonReport_v1 B C) : json F :=
  JDict [("excel_only", JList (asdict <$> excel_only_v1 self));
         ("qb_only", JList (asdict <$> qb_only_v1 self));
         ("conflicts", JList (asdict <$> conflicts_v1 self));
         ("matched", JList (asdict <$> matched_v1 self));
         ("summary",
          JDict [("total_excel_only", JInt (Z.of_nat (length (excel_only_v1 self))));
                 ("total_qb_only", JInt (Z.of_nat (length (qb_only_v1 self))));
                 ("total_conflicts", JInt (Z.of_nat (length (conflicts_v1 self))));
                 ("total_matched", JInt (Z.of_nat (length (matched_v1 self))))])].

(** Reading a parsed document: [d[key]] and [len(d)]. *)
Definition json_get {F} (key : string) (d : json F) : option (json F) :=
  match d with
  | JDict kvs => snd <$> find (λ kv, bool_decide (kv.1 = key)) kvs
  | _ => None
  end.

Definition json_len {F} (d : json F) : option (json F) :=
  match d with
  | JList l => Some (JInt (Z.of_nat (length l)))
  | _ => None
  end.

(** [data["summary"][total]] and [len(data[bucket])] of a document. *)
Definition summary_count {F} (total : string) (data : json F) : option (json F) :=
json_get "summary" data ≫= json_get total.

Definition bucket_len {F} (bucket : string) (data : json F) : option (json F) :=
json_get bucket data ≫= json_len.

(** *** The module namespace *)

(** What a class statement leaves behind, as far as attribute lookup on an
    instance goes: the fields and the methods written in its body. *)
Record pyclass := mkClass {
  class_fields : list string;
  class_methods : list string;
}.

(** The six class statements of the file, in the order they run. *)
Definition class_statements : list (string * pyclass) :=
  [("BillRecord",
    mkClass ["record_id"; "supplier"; "bank_date"; "chart_account"; "amount";
             "memo"; "line_memo"; "source"] ["__repr__"]);
   ("Conflict",
    mkClass ["record_id"; "excel_value"; "qb_value"; "reason"] []);
   ("ComparisonReport",
    mkClass ["excel_only"; "qb_only"; "conflicts"; "matched"] ["to_json"]);
   ("BillRecord",
    mkClass ["record_id"; "supplier"; "bank_date"; "chart_account"; "amount";
             "memo"; "line_memo"; "source"; "added_to_qb"] []);
   ("Conflict",
    mkClass ["record_id"; "excel_name"; "qb_name"; "reason"] []);
   ("ComparisonReport",
    mkClass ["excel_only"; "qb_only"; "conflicts"] [])].

(** Running the statements: each binds its name, replacing what was bound. *)
Definition namespace : gmap string pyclass :=
  foldl (λ ns st, <[st.1 := st.2]> ns) ∅ class_statements.

(** Looking a method up on an instance of the class bound to [class_name]. *)
Definition getattr_method (class_name name : string) : result unit :=
  match namespace !! class_name with
  | Some cls =>
      if bool_decide (name ∈ class_methods cls) then Ok ()
      else Raise (AttributeError
                    ("'" +:+ class_name +:+ "' object has no attribute '"
                     +:+ name +:+ "'"))
  | None => Raise (AttributeError class_name)
  end.

(** [report.to_json()] on a report built from the module's
    [ComparisonReport], as [compare_bills] builds it: the method is looked
    up first; its body would then run on the buckets of the instance. *)
Definition ComparisonReport_to_json {F} (report : ComparisonReport F)
  : result (json F) :=
  _ ←! getattr_method "ComparisonReport" "to_json";
  Ok (to_json_data
        (mkComparisonReport_v1 (excel_only report) (qb_only report)
           (conflicts report) [])).

End models.

(** ** comparer.py *)

(** An order of iteration over sets of ids: every id of the set once.  Python
    fixes none, and two sets with the same members may be walked in
    different orders, so each call below takes its own. *)
Record set_order := mkSetOrder {
  set_iter : gset string → list string;
  set_iter_perm : ∀ X, set_iter X ≡ₚ elements X;
}.

(** The order of stdpp's [elements]. *)
Definition elements_order : set_order :=
  {| set_iter := elements; set_iter_perm := λ X, reflexivity (elements X) |}.

(** The reverse of it. *)
Definition reverse_order : set_order :=
  {| set_iter := λ X, reverse (elements X);
     set_iter_perm := λ X, reverse_Permutation (elements X) |}.

Module comparer.
Import models.

Section with_float.
Context `{PyFloat F}.

(** [{bill.record_id: bill for bill in bills}] *)
Definition index_bills (bills : list (BillRecord F))
  : gmap string (BillRecord F) :=
  foldl (λ d bill, <[record_id bill := bill]> d) ∅ bills.

(** The labels collected in [mismatch_fields] for one pair, in the order of
    the five tests.  [x.line_memo == ""] holds of the empty string only, not
    of [None]; [x.line_memo and ...] asks for a string that is not empty. *)
Definition mismatch_fields (excel_bill qb_bill : BillRecord F) : list string :=
  (if bool_decide (line_memo excel_bill = Some "")
      && bool_decide (line_memo qb_bill = Some "")
      && bool_decide (memo excel_bill ≠ memo qb_bill)
   then ["Memo mismatch"] else [])
  ++ (if py.opt_bool (line_memo excel_bill)
         && py.opt_bool (line_memo qb_bill)
         && bool_decide (line_memo excel_bill ≠ line_memo qb_bill)
      then ["LineMemo mismatch"] else [])
  ++ (if bool_decide (supplier excel_bill ≠ supplier qb_bill)
      then ["Supplier/Vendor mismatch"] else [])
  ++ (if bool_decide (py.str_opt_float (amount excel_bill)
                      ≠ py.str_opt_float (amount qb_bill))
      then ["Amount mismatch"] else [])
  ++ (if bool_decide (chart_account excel_bill ≠ chart_account qb_bill)
      then ["ChartAccount mismatch"] else []).

(** The three lists the loop appends to. *)
Definition empty_report : ComparisonReport F :=
  mkComparisonReport [] [] [].

(** One turn of [for record_id in all_ids].  [excel_dict.get(record_id)] is
    the record or [None]; a [BillRecord] defines neither [__bool__] nor
    [__len__], so [if excel_bill] asks no more than whether there is one. *)
Definition compare_step (excel_dict qb_dict : gmap string (BillRecord F))
    (acc : ComparisonReport F) (record_id : string) : ComparisonReport F :=
  match excel_dict !! record_id, qb_dict !! record_id with
  | Some excel_bill, None =>
      mkComparisonReport (excel_only acc ++ [excel_bill]) (qb_only acc)
        (conflicts acc)
  | None, Some qb_bill =>
      mkComparisonReport (excel_only acc) (qb_only acc ++ [qb_bill])
        (conflicts acc)
  | Some excel_bill, Some qb_bill =>
      match mismatch_fields excel_bill qb_bill with
      | [] => acc
      | fields =>
          mkComparisonReport (excel_only acc) (qb_only acc)
            (conflicts acc
             ++ [mkConflict record_id
                   (Some (BillRecord_repr excel_bill))
                   (Some (BillRecord_repr qb_bill))
                   (py.join ", " fields)])
      end
  | None, None => acc
  end.

(** [set(excel_dict.keys()) | set(qb_dict.keys())] *)
Definition all_ids (excel_bills qb_bills : list (BillRecord F)) : gset string :=
  dom (index_bills excel_bills) ∪ dom (index_bills qb_bills).

(** [compare_bills]; [order] is the order in which the loop meets the ids
    of [all_ids]. *)
Definition compare_bills (order : set_order)
    (excel_bills qb_bills : list (BillRecord F)) : ComparisonReport F :=
  let excel_dict := index_bills excel_bills in
  let qb_dict := index_bills qb_bills in
  foldl (compare_step excel_dict qb_dict) empty_report
    (set_iter order (all_ids excel_bills qb_bills)).

(** What one turn adds to each list. *)
Definition excel_only_at (excel_dict qb_dict : gmap string (BillRecord F))
    (record_id : string) : option (BillRecord F) :=
  match excel_dict !! record_id, qb_dict !! record_id with
  | Some excel_bill, None => Some excel_bill
  | _, _ => None
  end.

Definition qb_only_at (excel_dict qb_dict : gmap string (BillRecord F))
    (record_id : string) : option (BillRecord F) :=
  match excel_dict !! record_id, qb_dict !! record_id with
  | None, Some qb_bill => Some qb_bill
  | _, _ => None
  end.

Definition conflict_of (record_id : string) (excel_bill qb_bill : BillRecord F)
  : option Conflict :=
  match mismatch_fields excel_bill qb_bill with
  | [] => None
  | fields =>
      Some (mkConflict record_id (Some (BillRecord_repr excel_bill))
              (Some (BillRecord_repr qb_bill)) (py.join ", " fields))
  end.

Definition conflict_at (excel_dict qb_dict : gmap string (BillRecord F))
    (record_id : string) : option Conflict :=
  match excel_dict !! record_id, qb_dict !! record_id with
  | Some excel_bill, Some qb_bill => conflict_of record_id excel_bill qb_bill
  | _, _ => None
  end.

(** *** Vocabulary of the properties *)

(** The ids of a list. *)
Definition ids (bills : list (BillRecord F)) : gset string :=
  list_to_set (record_id <$> bills).

(** [bill] is the last record of [bills] with its id. *)
Definition last_with_id (bills : list (BillRecord F)) (bill : BillRecord F)
  : Prop :=
  last (filter (λ b, record_id b = record_id bill) bills) = Some bill.

(** The field rules, as propositions. *)
Definition memo_differs (a b : BillRecord F) : Prop :=
  line_memo a = Some "" ∧ line_memo b = Some "" ∧ memo a ≠ memo b.

Definition nonempty (o : option string) : Prop :=
  ∃ s, o = Some s ∧ s ≠ "".

Definition line_memo_differs (a b : BillRecord F) : Prop :=
  nonempty (line_memo a) ∧ nonempty (line_memo b)
  ∧ line_memo a ≠ line_memo b.

Definition supplier_differs (a b : BillRecord F) : Prop :=
  supplier a ≠ supplier b.

Definition amount_differs (a b : BillRecord F) : Prop :=
  py.str_opt_float (amount a) ≠ py.str_opt_float (amount b).

Definition chart_account_differs (a b : BillRecord F) : Prop :=
  chart_account a ≠ chart_account b.

Definition some_field_differs (a b : BillRecord F) : Prop :=
  memo_differs a b ∨ line_memo_differs a b ∨ supplier_differs a b
  ∨ amount_differs a b ∨ chart_account_differs a b.

(** The conflicts of a report for one id. *)
Definition conflicts_for (id : string) (r : ComparisonReport F)
  : list Conflict :=
  filter (λ c, Conflict_record_id c = id) (conflicts r).

(** The labels a conflict carries: its [reason], split at [", "]. *)
Fixpoint split_labels (cur : string) (s : string) : list string :=
  match s with
  | EmptyString => [String.rev cur]
  | String "," (String " " s') => String.rev cur :: split_labels "" s'
  | String a s' => split_labels (String a cur) s'
  end.

Definition labels (c : Conflict) : list string :=
  split_labels "" (reason c).

(** A conflict with its two sides exchanged. *)
Definition swap_sides (c : Conflict) : Conflict :=
  mkConflict (Conflict_record_id c) (qb_name c) (excel_name c) (reason c).

End with_float.

End comparer.

(** ** qb_gateway.py *)

Module qb_gateway.
Import models.

(** An [xml.etree.ElementTree.Element]: tag, attributes, children. *)
#[local] Unset Elimination Schemes.
Inductive element :=
  | Element (tag : string) (attrib : gmap string string)
      (children : list element).
#[local] Set Elimination Schemes.

Definition attrib_of (e : element) : gmap string string :=
  match e with Element _ a _ => a end.

Definition children_of (e : element) : list element :=
  match e with Element _ _ cs => cs end.

(** [e.get(key, default)] *)
Definition get (e : element) (key default_ : string) : string :=
  default default_ (attrib_of e !! key).

(** [e.iter()]: the element and its descendants in document order. *)
Fixpoint iter (e : element) : list element :=
  match e with
  | Element _ _ cs => e :: (cs ≫= iter)
  end.

(** [root.find(".//*[@statusCode]")]: the first descendant of [root], the
    root itself left out, that has a [statusCode] attribute. *)
Definition find_statusCode (root : element) : option element :=
  head (filter (λ e, is_Some (attrib_of e !! "statusCode"))
          (children_of root ≫= iter)).

(** What the gateway talks to: the XML parser and the QuickBooks request
    processor ([OpenConnection2], [BeginSession], [ProcessRequest] and the
    closing calls, as one exchange that answers with the raw response or
    raises). *)
Record quickbooks := mkQuickbooks {
  ET_fromstring : string → result element;
  ProcessRequest : string → result string;
}.

Definition nl : string := String "010"%char "".
Definition q : string := String py.dquote "".

Definition _escape_xml (value : string) : string :=
  py.replace py.squote "&apos;"
    (py.replace py.dquote "&quot;"
       (py.replace ">" "&gt;"
          (py.replace "<" "&lt;"
             (py.replace "&" "&amp;" value)))).

Definition _parse_response (qb : quickbooks) (raw_xml : string)
  : result element :=
  root ←! ET_fromstring qb raw_xml;
  match find_statusCode root with
  | None => Raise (RuntimeError "QuickBooks response missing status information")
  | Some response =>
      match py.int (get response "statusCode" "0") with
      | None =>
          Raise (ValueError
                   ("invalid literal for int() with base 10: "
                    +:+ py.repr_str (get response "statusCode" "0")))
      | Some status_code =>
          let status_message := get response "statusMessage" "" in
          if bool_decide (status_code ≠ 0 ∧ status_code ≠ 1)
          then Raise (RuntimeError
                        ("QuickBooks error (" +:+ pretty status_code +:+ "): "
                         +:+ status_message))
          else Ok root
      end
  end.

Definition _send_qbxml (qb : quickbooks) (qbxml : string) : result element :=
  raw_response ←! ProcessRequest qb qbxml;
  _parse_response qb raw_response.

(** [try: body except Exception: handler] *)
Definition try_except {A} (body : result A) (handler : exn → result A)
  : result A :=
  match body with
  | Ok a => Ok a
  | Raise e => handler e
  end.

Section with_float.
Context `{PyFloat F}.

(** [not bill.amount or bill.amount <= 0] *)
Definition invalid_amount (a : option F) : bool :=
  match a with
  | None => true
  | Some x => negb (float_bool x) || float_le0 x
  end.

(** The record passes the two checks: a supplier, and an amount that is
    neither missing, nor zero, nor below zero. *)
Definition valid (bill : BillRecord F) : Prop :=
py.opt_bool (supplier bill) = true ∧ invalid_amount (amount bill) = false.

Definition txn_date_of (bill : BillRecord F) : string :=
  if py.opt_bool (bank_date bill)
  then py.before_space (py.or_empty (bank_date bill))
  else "".

Definition expense_line_of (bill : BillRecord F) : string :=
  match chart_account bill, amount bill with
  | Some account, Some x =>
      if py.str_bool account
      then "    <ExpenseLineAdd>" +:+ nl
           +:+ "      <AccountRef><FullName>" +:+ _escape_xml account
           +:+ "</FullName></AccountRef>" +:+ nl
           +:+ "      <Amount>" +:+ float_fmt2 x +:+ "</Amount>" +:+ nl
           +:+ "      <Memo>" +:+ _escape_xml (py.or_empty (line_memo bill))
           +:+ "</Memo>" +:+ nl
           +:+ "    </ExpenseLineAdd>" +:+ nl
      else ""
  | _, _ => ""
  end.

Definition qbxml_of (bill : BillRecord F) : string :=
  "<?xml version=" +:+ q +:+ "1.0" +:+ q +:+ " encoding=" +:+ q +:+ "utf-8"
  +:+ q +:+ "?>" +:+ nl
  +:+ "<?qbxml version=" +:+ q +:+ "16.0" +:+ q +:+ "?>" +:+ nl
  +:+ "<QBXML>" +:+ nl
  +:+ "  <QBXMLMsgsRq onError=" +:+ q +:+ "stopOnError" +:+ q +:+ ">" +:+ nl
  +:+ "    <BillAddRq>" +:+ nl
  +:+ "      <BillAdd>" +:+ nl
  +:+ "        <VendorRef><FullName>"
  +:+ _escape_xml (py.or_empty (supplier bill))
  +:+ "</FullName></VendorRef>" +:+ nl
  +:+ "        <TxnDate>" +:+ txn_date_of bill +:+ "</TxnDate>" +:+ nl
  +:+ "        <Memo>" +:+ _escape_xml (py.or_empty (memo bill)) +:+ "</Memo>"
  +:+ nl
  +:+ expense_line_of bill
  +:+ "      </BillAdd>" +:+ nl
  +:+ "    </BillAddRq>" +:+ nl
  +:+ "  </QBXMLMsgsRq>" +:+ nl
  +:+ "</QBXML>".

(** What a call of [add_bill_to_qb] leaves: the value it returns ([None]
    when the function runs off its end without a [return]), the record
    passed in as the call left it, and the requests sent to QuickBooks. *)
Record outcome := mkOutcome {
  returned : option (BillRecord F);
  bill_after : BillRecord F;
  requests : list string;
}.

Definition add_bill_to_qb (qb : quickbooks) (bill : BillRecord F)
  : result outcome :=
  if negb (py.opt_bool (supplier bill))
  then Ok (mkOutcome (Some bill) bill [])
  else if invalid_amount (amount bill)
  then Ok (mkOutcome (Some bill) bill [])
  else
    let qbxml := qbxml_of bill in
    try_except
      (response ←! _send_qbxml qb qbxml;
       let bill := set_added_to_qb true bill in
       (* the [try] suite ends here; nothing after the statement returns *)
       Ok (mkOutcome None bill [qbxml]))
      (λ e,
         let bill := set_added_to_qb false bill in
         Ok (mkOutcome (Some bill) bill [qbxml])).

End with_float.

End qb_gateway.

(** ** main.py: the write-back loop *)

Module main.
Import models qb_gateway.

Section with_float.
Context `{PyFloat F}.

(** The body of [for bill in comparison_report.excel_only]: the call,
    whose value is dropped, then [bill.added_to_qb = True]. *)
Definition write_back_one (qb : quickbooks) (bill : BillRecord F)
  : result (BillRecord F) :=
  o ←! add_bill_to_qb qb bill;
  Ok (set_added_to_qb true (bill_after o)).

End with_float.

End main.

(** ** excel_reader.py *)

Module excel_reader.
Import models.

(** A cell value as [iter_rows(values_only=True)] yields it.  A date cell
    carries the text [str] gives for it. *)
Inductive cell (F : Type) :=
  | CNone
  | CStr (s : string)
  | CInt (n : Z)
  | CFloat (x : F)
  | CBool (b : bool)
  | CDateTime (text : string).
Arguments CNone {F}.
Arguments CStr {F} s.
Arguments CInt {F} n.
Arguments CFloat {F} x.
Arguments CBool {F} b.
Arguments CDateTime {F} text.

Definition required_columns : list string :=
  ["Parent ID"; "Child ID"; "Supplier"; "Comments"; "Invoice Amount";
   "Bank Date"; "Tier 2 - Chart of Account"].

Section with_float.
Context `{PyFloat F}.

(** [bool(c)] *)
Definition cell_bool (c : cell F) : bool :=
  match c with
  | CNone => false
  | CStr s => py.str_bool s
  | CInt n => bool_decide (n ≠ 0)
  | CFloat x => float_bool x
  | CBool b => b
  | CDateTime _ => true
  end.

(** [str(c)] *)
Definition cell_str (c : cell F) : string :=
  match c with
  | CNone => "None"
  | CStr s => s
  | CInt n => pretty n
  | CFloat x => float_str x
  | CBool b => py.repr_bool b
  | CDateTime text => text
  end.

(** [str(c or "")] *)
Definition str_or_empty (c : cell F) : string :=
  if cell_bool c then cell_str c else "".

(** [[str(h).strip() if h else "" for h in rows[0]]] *)
Definition header_row_of (row0 : list (cell F)) : list string :=
  (λ h, if cell_bool h then py.strip (cell_str h) else "") <$> row0.

(** [{name: idx for idx, name in enumerate(header_row)}] *)
Definition header_index_of (header_row : list string) : gmap string nat :=
  foldl (λ d p, <[p.2 := p.1]> d) ∅ (imap (λ idx name, (idx, name)) header_row).

(** The loop over [required_columns]: the first missing one is reported. *)
Fixpoint check_columns (header_index : gmap string nat) (cols : list string)
  : result unit :=
  match cols with
  | [] => Ok ()
  | col :: cols' =>
      match header_index !! col with
      | None => Raise (ValueError
                         ("Missing required column in Excel: '" +:+ col +:+ "'"))
      | Some _ => check_columns header_index cols'
      end
  end.

(** [row[header_index.get(name, "")]] *)
Definition column (header_index : gmap string nat) (row : list (cell F))
    (name : string) : result (cell F) :=
  match header_index !! name with
  | None => Raise (IndexError "tuple indices must be integers or slices, not str")
  | Some idx =>
      match row !! idx with
      | Some c => Ok c
      | None => Raise (IndexError "tuple index out of range")
      end
  end.

(** The text the reader takes from a cell: [str(c or "").strip()]. *)
Definition text_of (c : cell F) : string := py.strip (str_or_empty c).

(** The [try] suite of the row loop; [Ok None] is its [continue]. *)
Definition read_row (header_index : gmap string nat) (row : list (cell F))
  : result (option (BillRecord F)) :=
  c_parent ←! column header_index row "Parent ID";
  let parent_id := py.strip (str_or_empty c_parent) in
  c_child ←! column header_index row "Child ID";
  let child_id := py.strip (str_or_empty c_child) in
  c_supplier ←! column header_index row "Supplier";
  let supplier := py.strip (str_or_empty c_supplier) in
  c_memo ←! column header_index row "Comments";
  let memo := py.strip (str_or_empty c_memo) in
  c_date ←! column header_index row "Bank Date";
  let bank_date := py.strip (str_or_empty c_date) in
  c_account ←! column header_index row "Tier 2 - Chart of Account";
  let chart_account := py.strip (str_or_empty c_account) in
  c_amount ←! column header_index row "Invoice Amount";
  let amount_str :=
    py.strip (py.replace "," "" (py.replace "$" "" (str_or_empty c_amount))) in
  amount ←! (if py.str_bool amount_str
             then match float_of_str amount_str with
                  | Some x => Ok x
                  | None => Raise (ValueError
                                     ("could not convert string to float: "
                                      +:+ py.repr_str amount_str))
                  end
             else Ok float_zero);
  let record_id := if py.str_bool child_id then child_id else parent_id in
  if negb (py.str_bool record_id) then Ok None
  else Ok (Some (mkBillRecord record_id (Some supplier) (Some bank_date)
                   (Some chart_account) (Some amount) (Some memo) (Some memo)
                   "excel" false)).

(** The loop over [rows[1:]]. *)
Definition read_rows (header_index : gmap string nat)
    (rows : list (list (cell F))) : list (BillRecord F) :=
  foldl (λ bills row,
           if negb (existsb cell_bool row) then bills
           else match read_row header_index row with
                | Ok (Some bill) => bills ++ [bill]
                | Ok None => bills
                | Raise _ => bills
                end)
    [] rows.

(** [read_excel_data], from the rows of the active sheet on. *)
Definition read_excel_data (rows : list (list (cell F)))
  : result (list (BillRecord F)) :=
  match rows with
  | [] => Raise (ValueError "Excel file is empty")
  | row0 :: rest =>
      let header_index := header_index_of (header_row_of row0) in
      _ ←! check_columns header_index required_columns;
      Ok (read_rows header_index rest)
  end.

End with_float.

End excel_reader.

(** ** Sample data

    Bills with whole amounts, for the closed examples. *)

Module samples.
Import models whole_float qb_gateway excel_reader.

(** A parent-level bill of the spreadsheet and its QuickBooks twin. *)
Definition acme : BillRecord Z :=
  mkBillRecord "1" (Some "Acme") (Some "2025-01-02") (Some "Travel")
    (Some 100) (Some "trip") (Some "") "excel" false.

Definition acme_qb : BillRecord Z :=
  mkBillRecord "1" (Some "Acme") (Some "2025-01-02") (Some "Travel")
    (Some 100) (Some "trip") (Some "") "quickbooks" false.

(** The twin with another supplier, another amount, another memo. *)
Definition acme_corp_qb : BillRecord Z :=
  mkBillRecord "1" (Some "Acme Corp") (Some "2025-01-02") (Some "Travel")
    (Some 100) (Some "trip") (Some "") "quickbooks" false.

Definition acme_120_qb : BillRecord Z :=
  mkBillRecord "1" (Some "Acme") (Some "2025-01-02") (Some "Travel")
    (Some 120) (Some "trip") (Some "") "quickbooks" false.

Definition acme_memo_qb : BillRecord Z :=
  mkBillRecord "1" (Some "Acme") (Some "2025-01-02") (Some "Travel")
    (Some 100) (Some "hotel") (Some "") "quickbooks" false.

(** The twin as a line-level record. *)
Definition acme_line_qb : BillRecord Z :=
  mkBillRecord "1" (Some "Acme") (Some "2025-01-02") (Some "Travel")
    (Some 100) (Some "hotel") (Some "room") "quickbooks" false.

(** Two spreadsheet rows with one id. *)
Definition dup_first : BillRecord Z :=
  mkBillRecord "7" (Some "Bolt") None (Some "Tools") (Some 40) (Some "a")
    (Some "a") "excel" false.

Definition dup_last : BillRecord Z :=
  mkBillRecord "7" (Some "Bolt Ltd") None (Some "Tools") (Some 45) (Some "b")
    (Some "b") "excel" false.

(** A QuickBooks bill of its own. *)
Definition qb_rent : BillRecord Z :=
  mkBillRecord "9" (Some "Landlord") (Some "2025-02-01") (Some "")
    (Some 900) (Some "rent") (Some "") "quickbooks" false.

(** QuickBooks responses: a status element below the root. *)
Definition response_with (attrs : gmap string string) : element :=
Element "QBXML" ∅ [Element "QBXMLMsgsRs" ∅ [Element "BillAddRs" attrs []]].

Definition response_ok : element :=
response_with {[ "statusCode" := "0"; "statusSeverity" := "Info";
                 "statusMessage" := "Status OK" ]}.

Definition response_warning : element :=
response_with {[ "statusCode" := "1"; "statusSeverity" := "Info";
                 "statusMessage" := "No match" ]}.

Definition response_error : element :=
response_with {[ "statusCode" := "3140"; "statusSeverity" := "Error";
                 "statusMessage" := "Invalid reference to Vendor" ]}.

Definition response_not_a_number : element :=
response_with {[ "statusCode" := "n/a"; "statusMessage" := "?" ]}.

Definition response_without_status : element :=
response_with ∅.

(** A QuickBooks that answers every request with [root], and one whose
    connection cannot be opened. *)
Definition qb_answering (root : element) : quickbooks :=
mkQuickbooks (λ _, Ok root) (λ _, Ok "<QBXML/>").

Definition qb_unreachable : quickbooks :=
mkQuickbooks (λ _, Raise (ParseError "no element found"))
  (λ _, Raise (ComError "Could not start QuickBooks.")).

(** A spreadsheet bill without supplier, and one with amount zero. *)
Definition no_supplier : BillRecord Z :=
mkBillRecord "3" (Some "") (Some "2025-01-05") (Some "Travel")
  (Some 70) (Some "") (Some "") "excel" false.

Definition zero_amount : BillRecord Z :=
mkBillRecord "4" (Some "Acme") (Some "2025-01-05") (Some "Travel")
  (Some 0) (Some "") (Some "") "excel" false.

(** A sheet: the header row, a parent row whose Comments cell holds one
    blank, an empty row, a child row, a row without ids. *)
Definition header : list (cell Z) :=
CStr <$> ["Parent ID"; "Child ID"; "Supplier"; "Comments"; "Invoice Amount";
          "Bank Date"; "Tier 2 - Chart of Account"].

Definition blank_comment_row : list (cell Z) :=
[CStr "P1"; CNone; CStr "Acme"; CStr " "; CStr "$1,200";
 CDateTime "2025-01-02 00:00:00"; CStr "Travel"].

Definition empty_row : list (cell Z) :=
[CNone; CNone; CNone; CNone; CNone; CNone; CNone].

Definition child_row : list (cell Z) :=
[CStr "P1"; CStr "C9"; CStr "Acme"; CStr "taxi"; CFloat 35;
 CDateTime "2025-01-03 00:00:00"; CStr "Travel"].

Definition no_id_row : list (cell Z) :=
[CNone; CNone; CStr "Acme"; CStr "lost"; CInt 5; CNone; CNone].

Definition sheet : list (list (cell Z)) :=
[header; blank_comment_row; empty_row; child_row; no_id_row].

Definition blank_comment_bill : BillRecord Z :=
mkBillRecord "P1" (Some "Acme") (Some "2025-01-02 00:00:00") (Some "Travel")
  (Some 1200) (Some "") (Some "") "excel" false.

Definition child_bill : BillRecord Z :=
mkBillRecord "C9" (Some "Acme") (Some "2025-01-03 00:00:00") (Some "Travel")
  (Some 35) (Some "taxi") (Some "taxi") "excel" false.

End samples.

(** ** qb_gateway.py: fetching the bills *)

Module qb_fetch.
Import models qb_gateway.

(** An element with its text, as [fetch_bills_from_qb] reads it. *)
#[local] Unset Elimination Schemes.
Inductive node :=
  | Node (tag : string) (attrib : gmap string string) (text : option string)
      (children : list node).
#[local] Set Elimination Schemes.

Definition tag_of (n : node) : string :=
  match n with Node t _ _ _ => t end.

Definition text_of_node (n : node) : option string :=
  match n with Node _ _ t _ => t end.

Definition nodes_of (n : node) : list node :=
  match n with Node _ _ _ cs => cs end.

(** The same element without its text: what the status check looks at. *)
Fixpoint element_of (n : node) : element :=
  match n with
  | Node t a _ cs => Element t a (element_of <$> cs)
  end.

(** [n.iter()] *)
Fixpoint iter_nodes (n : node) : list node :=
  match n with
  | Node _ _ _ cs => n :: (cs ≫= iter_nodes)
  end.

(** [n.findall(".//tag")]: the descendants with that tag, in document order. *)
Definition findall (tag : string) (n : node) : list node :=
  filter (λ d, tag_of d = tag) (nodes_of n ≫= iter_nodes).

(** The matches of a path [tag/tag/...] of child steps, in document order. *)
Fixpoint iterfind (path : list string) (n : node) : list node :=
  match path with
  | [] => [n]
  | t :: path' => filter (λ c, tag_of c = t) (nodes_of n) ≫= iterfind path'
  end.

(** [n.findtext(path)]: the text of the first match, [""] when it has
    none, [None] when nothing matches. *)
Definition findtext (path : list string) (n : node) : option string :=
  (λ m, default "" (text_of_node m)) <$> head (iterfind path n).

(** QuickBooks and the XML parser, the parsed elements with their text. *)
Record quickbooks_xml := mkQuickbooksXml {
  parse : string → result node;
  process : string → result string;
}.

(** The same, as [_parse_response] sees it. *)
Definition gateway_of (qx : quickbooks_xml) : quickbooks :=
  mkQuickbooks (λ raw_xml, root ←! parse qx raw_xml; Ok (element_of root))
    (process qx).

(** [_send_qbxml], keeping the text of the parsed response: the root comes
    back when [_parse_response] accepts the status of the document. *)
Definition _send_qbxml_xml (qx : quickbooks_xml) (qbxml : string) : result node :=
  raw_response ←! process qx qbxml;
  root ←! parse qx raw_response;
  _ ←! _parse_response (gateway_of qx) raw_response;
  Ok root.

Definition bill_query : string :=
  "<?xml version=" +:+ q +:+ "1.0" +:+ q +:+ "?>" +:+ nl
  +:+ "    <?qbxml version=" +:+ q +:+ "16.0" +:+ q +:+ "?>" +:+ nl
  +:+ "    <QBXML>" +:+ nl
  +:+ "      <QBXMLMsgsRq onError=" +:+ q +:+ "stopOnError" +:+ q +:+ ">" +:+ nl
  +:+ "        <BillQueryRq>" +:+ nl
  +:+ "          <IncludeLineItems>true</IncludeLineItems>" +:+ nl
  +:+ "        </BillQueryRq>" +:+ nl
  +:+ "      </QBXMLMsgsRq>" +:+ nl
  +:+ "    </QBXML>".

(** A loop whose body may raise: the first exception ends it. *)
Fixpoint mapM {A B} (f : A → result B) (l : list A) : result (list B) :=
  match l with
  | [] => Ok []
  | x :: l' => y ←! f x; ys ←! mapM f l'; Ok (y :: ys)
  end.

Section with_float.
Context `{PyFloat F}.

(** [float(text or 0)] *)
Definition float_or_0 (text : option string) : result F :=
  if py.opt_bool text
  then match float_of_str (py.or_empty text) with
       | Some x => Ok x
       | None => Raise (ValueError
                          ("could not convert string to float: "
                           +:+ py.repr_str (py.or_empty text)))
       end
  else Ok float_zero.

(** The record appended for a [BillRet]. *)
Definition parent_record (bill_ret : node) : result (BillRecord F) :=
  let parent_id := py.or_empty (findtext ["TxnID"] bill_ret) in
  let supplier := py.or_empty (findtext ["VendorRef"; "FullName"] bill_ret) in
  let txn_date := py.or_empty (findtext ["TxnDate"] bill_ret) in
  let memo := py.or_empty (findtext ["Memo"] bill_ret) in
  amount ←! float_or_0 (findtext ["AmountDue"] bill_ret);
  Ok (mkBillRecord parent_id (Some supplier) (Some txn_date) (Some "")
        (Some amount) (Some memo) (Some "") "quickbooks" false).

(** The record appended for an [ExpenseLineRet] of a [BillRet]. *)
Definition line_record (bill_ret line : node) : result (BillRecord F) :=
  let supplier := py.or_empty (findtext ["VendorRef"; "FullName"] bill_ret) in
  let txn_date := py.or_empty (findtext ["TxnDate"] bill_ret) in
  let memo := py.or_empty (findtext ["Memo"] bill_ret) in
  let line_id := py.or_empty (findtext ["TxnLineID"] line) in
  line_amount ←! float_or_0 (findtext ["Amount"] line);
  let line_memo := py.or_empty (findtext ["Memo"] line) in
  Ok (mkBillRecord line_id (Some supplier) (Some txn_date)
        (Some (py.or_empty (findtext ["AccountRef"; "FullName"] line)))
        (Some line_amount) (Some memo) (Some line_memo) "quickbooks" false).

(** One turn of [for bill_ret in root.findall(".//BillRet")]. *)
Definition records_of_bill (bill_ret : node) : result (list (BillRecord F)) :=
  parent ←! parent_record bill_ret;
  lines ←! mapM (line_record bill_ret) (findall "ExpenseLineRet" bill_ret);
  Ok (parent :: lines).

Definition fetch_bills_from_qb (qx : quickbooks_xml)
  : result (list (BillRecord F)) :=
  root ←! _send_qbxml_xml qx bill_query;
  groups ←! mapM records_of_bill (findall "BillRet" root);
  Ok (concat groups).

End with_float.

End qb_fetch.

(** ** main.py: the script *)

Module main_script.
Import models comparer qb_gateway qb_fetch excel_reader.

Section with_float.
Context `{PyFloat F}.

(** [for bill in comparison_report.excel_only]; the write of turn [n] talks
    to QuickBooks as it is then, [qb_at n]. *)
Fixpoint write_back (qb_at : nat → quickbooks) (n : nat)
    (bills : list (BillRecord F)) : result (list (BillRecord F)) :=
  match bills with
  | [] => Ok []
  | bill :: rest =>
      bill' ←! main.write_back_one (qb_at n) bill;
      rest' ←! write_back qb_at (S n) rest;
      Ok (bill' :: rest')
  end.

(** The script from the rows of the workbook to the report it hands to
    [save_comparison_report]. *)
Definition run (order : set_order) (rows : list (list (cell F)))
    (qx : quickbooks_xml) (qb_at : nat → quickbooks)
  : result (ComparisonReport F) :=
  excel_rows ←! read_excel_data rows;
  qb_bills ←! fetch_bills_from_qb qx;
  let comparison_report := compare_bills order excel_rows qb_bills in
  excel_only' ←! write_back qb_at 0 (excel_only comparison_report);
  Ok (mkComparisonReport excel_only' (qb_only comparison_report)
        (conflicts comparison_report)).

End with_float.

End main_script.

(** ** Vocabulary of further properties *)

Module vocabulary.
Import models comparer qb_gateway qb_fetch.

(** What [_escape_xml] makes of one character. *)
Definition escape_char (a : ascii) : string :=
  if bool_decide (a = "&"%char) then "&amp;"
  else if bool_decide (a = "<"%char) then "&lt;"
  else if bool_decide (a = ">"%char) then "&gt;"
  else if bool_decide (a = py.dquote) then "&quot;"
  else if bool_decide (a = py.squote) then "&apos;"
  else String a "".

Fixpoint escape_chars (s : string) : string :=
  match s with
  | EmptyString => ""
  | String a s' => escape_char a +:+ escape_chars s'
  end.

(** Text with none of the five characters [_escape_xml] rewrites. *)
Definition plain_text (s : string) : Prop :=
  py.contains "&" s = false ∧ py.contains "<" s = false
  ∧ py.contains ">" s = false ∧ py.contains py.dquote s = false
  ∧ py.contains py.squote s = false.

(** The five labels, in the order the tests run. *)
Definition all_labels : list string :=
  ["Memo mismatch"; "LineMemo mismatch"; "Supplier/Vendor mismatch";
   "Amount mismatch"; "ChartAccount mismatch"].


(** What one [BillRet] contributes to the fetched list: the record of the
    bill, then the records of its expense lines. *)
Definition bill_group {F} (bill_ret : node) (group : list (BillRecord F)) : Prop :=
  ∃ parent lines,
    group = parent :: lines
    ∧ record_id parent = py.or_empty (findtext ["TxnID"] bill_ret)
    ∧ chart_account parent = Some "" ∧ line_memo parent = Some ""
    ∧ Forall2 (λ line b,
                 record_id b = py.or_empty (findtext ["TxnLineID"] line)
                 ∧ line_memo b = Some (py.or_empty (findtext ["Memo"] line))
                 ∧ supplier b = supplier parent
                 ∧ bank_date b = bank_date parent
                 ∧ memo b = memo parent)
        (findall "ExpenseLineRet" bill_ret) lines.

(** No field of the record is [None]. *)
Definition all_fields_set {F} (b : BillRecord F) : Prop :=
  is_Some (supplier b) ∧ is_Some (bank_date b) ∧ is_Some (chart_account b)
  ∧ is_Some (amount b) ∧ is_Some (memo b) ∧ is_Some (line_memo b).

End vocabulary.

(** ** Sample data for the adapters *)

Module adapter_samples.
Import models whole_float qb_gateway qb_fetch excel_reader.

Definition leaf (tag text : string) : node := Node tag ∅ (Some text) [].

(** A bill with two expense lines, the second without id and amount. *)
Definition bill_ret : node :=
  Node "BillRet" ∅ None
    [leaf "TxnID" "T-1";
     Node "VendorRef" ∅ None [leaf "ListID" "8"; leaf "FullName" "Acme"];
     leaf "TxnDate" "2025-01-02";
     leaf "AmountDue" "135";
     leaf "Memo" "trip";
     Node "ExpenseLineRet" ∅ None
       [leaf "TxnLineID" "L-1";
        Node "AccountRef" ∅ None [leaf "FullName" "Travel"];
        leaf "Amount" "100"; leaf "Memo" "flight"];
     Node "ExpenseLineRet" ∅ None
       [Node "AccountRef" ∅ None [leaf "FullName" "Travel"]]].

Definition bill_response : node :=
  Node "QBXML" ∅ None
    [Node "QBXMLMsgsRs" ∅ None
       [Node "BillQueryRs"
          {[ "statusCode" := "0"; "statusMessage" := "Status OK" ]} None
          [bill_ret]]].

Definition bill_error_response : node :=
  Node "QBXML" ∅ None
    [Node "QBXMLMsgsRs" ∅ None
       [Node "BillQueryRs"
          {[ "statusCode" := "3120"; "statusMessage" := "Object not found" ]}
          None [bill_ret]]].

Definition qx_answering (root : node) : quickbooks_xml :=
  mkQuickbooksXml (λ _, Ok root) (λ _, Ok "<QBXML/>").

Definition fetched : list (BillRecord Z) :=
  [mkBillRecord "T-1" (Some "Acme") (Some "2025-01-02") (Some "") (Some 135)
     (Some "trip") (Some "") "quickbooks" false;
   mkBillRecord "L-1" (Some "Acme") (Some "2025-01-02") (Some "Travel")
     (Some 100) (Some "trip") (Some "flight") "quickbooks" false;
   mkBillRecord "" (Some "Acme") (Some "2025-01-02") (Some "Travel")
     (Some 0) (Some "trip") (Some "") "quickbooks" false].

End adapter_samples.

(** * Properties *)

(** ** The index of a list *)

Section index_bills.
Import models comparer.
Context {F : Type}.
Implicit Types (bills : list (BillRecord F)) (bill : BillRecord F).

Lemma index_bills_snoc bills bill :
  index_bills (bills ++ [bill])
  = <[record_id bill := bill]> (index_bills bills).
Proof. unfold index_bills. by rewrite foldl_snoc. Qed.

(** The index holds, for each id, the last record of the list with it. *)
Lemma index_bills_lookup bills id :
  index_bills bills !! id = last (filter (λ b, record_id b = id) bills).
Proof.
  induction bills as [|bill bills IH] using rev_ind; [done|].
  rewrite index_bills_snoc, filter_app, filter_singleton by done.
  destruct (decide (record_id bill = id)) as [->|Hne].
  - by rewrite lookup_insert_eq, last_snoc.
  - by rewrite lookup_insert_ne, app_nil_r.
Qed.

Lemma index_bills_record_id bills id bill :
  index_bills bills !! id = Some bill → record_id bill = id.
Proof.
  rewrite index_bills_lookup. intros Hl%last_Some_elem_of.
  by apply list_elem_of_filter in Hl as [? _].
Qed.

Lemma index_bills_elem_of bills id bill :
  index_bills bills !! id = Some bill → bill ∈ bills.
Proof.
  rewrite index_bills_lookup. intros Hl%last_Some_elem_of.
  by apply list_elem_of_filter in Hl as [_ ?].
Qed.

Lemma last_with_id_lookup bills bill :
  last_with_id bills bill ↔ index_bills bills !! record_id bill = Some bill.
Proof. unfold last_with_id. by rewrite index_bills_lookup. Qed.

Lemma dom_index_bills bills : dom (index_bills bills) = ids bills.
Proof.
  unfold ids. induction bills as [|bill bills IH] using rev_ind; [done|].
  rewrite index_bills_snoc, dom_insert_L, IH, fmap_app, list_to_set_app_L.
  simpl. by rewrite (right_id_L ∅ (∪)), (comm_L (∪)).
Qed.

Lemma index_bills_None bills id :
  index_bills bills !! id = None ↔ id ∉ ids bills.
Proof. by rewrite <-dom_index_bills, not_elem_of_dom. Qed.

Lemma index_bills_is_Some bills bill :
  bill ∈ bills → is_Some (index_bills bills !! record_id bill).
Proof.
  intros Hin. apply elem_of_dom. rewrite dom_index_bills.
  unfold ids. apply elem_of_list_to_set, list_elem_of_fmap. eauto.
Qed.

End index_bills.

(** ** The loop of [compare_bills] *)

Section compare_loop.
Import models comparer.
Context `{PyFloat F}.
Implicit Types (A B : list (BillRecord F)) (a b : BillRecord F).
Implicit Types (ed qd : gmap string (BillRecord F)) (order : set_order).

(** The loop appends to each list what the turns yield, in turn order. *)
Lemma compare_loop_buckets ed qd acc l :
  foldl (compare_step ed qd) acc l
  = mkComparisonReport
      (excel_only acc ++ omap (excel_only_at ed qd) l)
      (qb_only acc ++ omap (qb_only_at ed qd) l)
      (conflicts acc ++ omap (conflict_at ed qd) l).
Proof.
  revert acc. induction l as [|id l IH]; intros acc; simpl.
  - rewrite !app_nil_r. by destruct acc.
  - rewrite IH. unfold compare_step, excel_only_at, qb_only_at, conflict_at, conflict_of.
    destruct (ed !! id) as [e|], (qd !! id) as [q'|]; simpl;
      rewrite <-?app_assoc; try done.
    destruct (mismatch_fields e q'); simpl; by rewrite <-?app_assoc.
Qed.

Lemma compare_bills_buckets order A B :
  compare_bills order A B
  = mkComparisonReport
      (omap (excel_only_at (index_bills A) (index_bills B)) (set_iter order (all_ids A B)))
      (omap (qb_only_at (index_bills A) (index_bills B)) (set_iter order (all_ids A B)))
      (omap (conflict_at (index_bills A) (index_bills B)) (set_iter order (all_ids A B))).
Proof. unfold compare_bills. by rewrite compare_loop_buckets. Qed.

Lemma elem_of_set_iter order (X : gset string) id :
  id ∈ set_iter order X ↔ id ∈ X.
Proof. by rewrite (set_iter_perm order X), elem_of_elements. Qed.

Lemma NoDup_set_iter order (X : gset string) : NoDup (set_iter order X).
Proof. rewrite (set_iter_perm order X). apply NoDup_elements. Qed.

Lemma elem_of_all_ids A B id :
  id ∈ all_ids A B
  ↔ is_Some (index_bills A !! id) ∨ is_Some (index_bills B !! id).
Proof. unfold all_ids. by rewrite elem_of_union, !elem_of_dom. Qed.

(** Membership in the buckets, in terms of the two indices. *)
Lemma elem_of_excel_only order A B a :
  a ∈ excel_only (compare_bills order A B)
  ↔ index_bills A !! record_id a = Some a
    ∧ index_bills B !! record_id a = None.
Proof.
  rewrite compare_bills_buckets; simpl. rewrite list_elem_of_omap. split.
  - intros (id & _ & Hat). unfold excel_only_at in Hat.
    destruct (index_bills A !! id) as [e|] eqn:He; [|done].
    destruct (index_bills B !! id) eqn:Hq; [done|].
    simplify_eq. by rewrite (index_bills_record_id _ _ _ He).
  - intros [Ha Hb]. exists (record_id a). split.
    + apply elem_of_set_iter, elem_of_all_ids. left. by rewrite Ha.
    + unfold excel_only_at. by rewrite Ha, Hb.
Qed.

Lemma elem_of_qb_only order A B b :
  b ∈ qb_only (compare_bills order A B)
  ↔ index_bills B !! record_id b = Some b
    ∧ index_bills A !! record_id b = None.
Proof.
  rewrite compare_bills_buckets; simpl. rewrite list_elem_of_omap. split.
  - intros (id & _ & Hat). unfold qb_only_at in Hat.
    destruct (index_bills A !! id) as [e|] eqn:He; [done|].
    destruct (index_bills B !! id) eqn:Hq; [|done].
    simplify_eq. by rewrite (index_bills_record_id _ _ _ Hq).
  - intros [Hb Ha]. exists (record_id b). split.
    + apply elem_of_set_iter, elem_of_all_ids. right. by rewrite Hb.
    + unfold qb_only_at. by rewrite Ha, Hb.
Qed.

Lemma conflict_at_record_id ed qd id c :
  conflict_at ed qd id = Some c → Conflict_record_id c = id.
Proof.
  unfold conflict_at, conflict_of.
  destruct (ed !! id) as [e|], (qd !! id) as [q'|]; try done.
  destruct (mismatch_fields e q'); [done|]. by intros [= <-].
Qed.

Lemma elem_of_conflicts order A B c :
  c ∈ conflicts (compare_bills order A B)
  ↔ ∃ a b, index_bills A !! Conflict_record_id c = Some a
           ∧ index_bills B !! Conflict_record_id c = Some b
           ∧ conflict_of (Conflict_record_id c) a b = Some c.
Proof.
  rewrite compare_bills_buckets; simpl. rewrite list_elem_of_omap. split.
  - intros (id & _ & Hat).
    pose proof (conflict_at_record_id _ _ _ _ Hat) as ->.
    unfold conflict_at in Hat.
    destruct (index_bills A !! _) as [e|]; [|done].
    destruct (index_bills B !! _) as [q'|]; [|done]. eauto.
  - intros (a & b & Ha & Hb & Hc). exists (Conflict_record_id c). split.
    + apply elem_of_set_iter, elem_of_all_ids. left. by rewrite Ha.
    + unfold conflict_at. by rewrite Ha, Hb.
Qed.

(** Filtering what the turns yield by id leaves the turn of that id. *)
Lemma filter_conflict_at ed qd (l : list string) id :
  NoDup l → id ∈ l →
  filter (λ c, Conflict_record_id c = id) (omap (conflict_at ed qd) l)
  = option_list (conflict_at ed qd id).
Proof.
  assert (Hout : ∀ l', id ∉ l' →
    filter (λ c, Conflict_record_id c = id) (omap (conflict_at ed qd) l') = []).
  { induction l' as [|x l' IH]; [done|].
    intros [Hx Hl']%not_elem_of_cons. simpl.
    destruct (conflict_at ed qd x) as [c|] eqn:Hc; simpl; [|by apply IH].
    rewrite filter_cons_False; [by apply IH|].
    by rewrite (conflict_at_record_id _ _ _ _ Hc). }
  induction l as [|x l IH]; intros Hnd Hin; [by apply elem_of_nil in Hin|].
  apply NoDup_cons in Hnd as [Hx Hnd]. simpl.
  destruct (decide (x = id)) as [->|Hne].
  - destruct (conflict_at ed qd id) as [c|] eqn:Hc; simpl; [|by apply Hout].
    rewrite filter_cons_True by by apply conflict_at_record_id in Hc.
    by rewrite Hout.
  - apply elem_of_cons in Hin as [?|Hin]; [done|].
    destruct (conflict_at ed qd x) as [c|] eqn:Hc; simpl; [|by apply IH].
    rewrite filter_cons_False; [by apply IH|].
    by rewrite (conflict_at_record_id _ _ _ _ Hc).
Qed.

(** The conflicts of the report for an id both lists have. *)
Lemma conflicts_for_shared order A B a b :
  last_with_id A a → last_with_id B b → record_id a = record_id b →
  conflicts_for (record_id a) (compare_bills order A B)
  = option_list (conflict_of (record_id a) a b).
Proof.
  intros Ha%last_with_id_lookup Hb%last_with_id_lookup Hid.
  unfold conflicts_for. rewrite compare_bills_buckets; simpl.
  rewrite filter_conflict_at.
  - unfold conflict_at. by rewrite Ha, Hid, Hb.
  - apply NoDup_set_iter.
  - apply elem_of_set_iter, elem_of_all_ids. left. by rewrite Ha.
Qed.

End compare_loop.

(** ** The field rules *)

Section field_rules.
Import models comparer.
Context `{PyFloat F}.
Implicit Types (a b : BillRecord F).

Lemma opt_bool_nonempty (o : option string) :
  py.opt_bool o = true ↔ nonempty o.
Proof.
  unfold nonempty. destruct o as [[|c s]|]; simpl; split; try done.
  - by intros (s & [= <-] & ?).
  - intros _. by exists (String c s).
  - by intros (s & ? & ?).
Qed.

Lemma memo_rule_spec a b :
  bool_decide (line_memo a = Some "") && bool_decide (line_memo b = Some "")
    && bool_decide (memo a ≠ memo b) = true
  ↔ memo_differs a b.
Proof.
  rewrite !andb_true_iff, !bool_decide_eq_true. unfold memo_differs. tauto.
Qed.

Lemma line_memo_rule_spec a b :
  py.opt_bool (line_memo a) && py.opt_bool (line_memo b)
    && bool_decide (line_memo a ≠ line_memo b) = true
  ↔ line_memo_differs a b.
Proof.
  rewrite !andb_true_iff, !opt_bool_nonempty, bool_decide_eq_true.
  unfold line_memo_differs. tauto.
Qed.

Lemma elem_of_rule (c : bool) (label x : string) :
  x ∈ (if c then [label] else []) ↔ c = true ∧ x = label.
Proof.
  destruct c.
  - rewrite list_elem_of_singleton. tauto.
  - rewrite elem_of_nil. split; [done|]. by intros [? _].
Qed.

(** Each label stands for its rule. *)
Lemma elem_of_mismatch_fields a b x :
  x ∈ mismatch_fields a b
  ↔ (memo_differs a b ∧ x = "Memo mismatch")
    ∨ (line_memo_differs a b ∧ x = "LineMemo mismatch")
    ∨ (supplier_differs a b ∧ x = "Supplier/Vendor mismatch")
    ∨ (amount_differs a b ∧ x = "Amount mismatch")
    ∨ (chart_account_differs a b ∧ x = "ChartAccount mismatch").
Proof.
  unfold mismatch_fields.
  rewrite !elem_of_app, !elem_of_rule, memo_rule_spec, line_memo_rule_spec,
    !bool_decide_eq_true.
  reflexivity.
Qed.

Lemma memo_label a b :
  "Memo mismatch" ∈ mismatch_fields a b ↔ memo_differs a b.
Proof.
  rewrite elem_of_mismatch_fields. split; [|by left].
  intros [[? _]|[[_ ?]|[[_ ?]|[[_ ?]|[_ ?]]]]]; done.
Qed.

Lemma line_memo_label a b :
  "LineMemo mismatch" ∈ mismatch_fields a b ↔ line_memo_differs a b.
Proof.
  rewrite elem_of_mismatch_fields. split; [|by right; left].
  intros [[_ ?]|[[? _]|[[_ ?]|[[_ ?]|[_ ?]]]]]; done.
Qed.

Lemma mismatch_fields_nil a b :
  mismatch_fields a b = [] ↔ ¬ some_field_differs a b.
Proof.
  unfold some_field_differs. split.
  - intros Hnil Hd.
    assert (∃ x, x ∈ mismatch_fields a b) as [x Hx].
    { setoid_rewrite elem_of_mismatch_fields.
      destruct Hd as [?|[?|[?|[?|?]]]]; eexists; eauto 10. }
    rewrite Hnil in Hx. by apply elem_of_nil in Hx.
  - intros Hno. destruct (mismatch_fields a b) as [|x l] eqn:Hm; [done|].
    exfalso. apply Hno.
    assert (x ∈ mismatch_fields a b) as Hx by (rewrite Hm; left).
    apply elem_of_mismatch_fields in Hx. tauto.
Qed.

Lemma mismatch_fields_nonempty a b :
  mismatch_fields a b ≠ [] ↔ some_field_differs a b.
Proof.
  split.
  - destruct (mismatch_fields a b) as [|x l] eqn:Hm; [done|]. intros _.
    assert (x ∈ mismatch_fields a b) as Hx by (rewrite Hm; left).
    apply elem_of_mismatch_fields in Hx. unfold some_field_differs. tauto.
  - intros Hd Hnil. by apply mismatch_fields_nil in Hnil.
Qed.

(** The rules do not tell the two sides apart. *)
Lemma mismatch_fields_sym a b : mismatch_fields b a = mismatch_fields a b.
Proof.
  unfold mismatch_fields.
  rewrite (bool_decide_ext (memo b ≠ memo a) (memo a ≠ memo b)) by done.
  rewrite (bool_decide_ext (line_memo b ≠ line_memo a)
             (line_memo a ≠ line_memo b)) by done.
  rewrite (bool_decide_ext (supplier b ≠ supplier a)
             (supplier a ≠ supplier b)) by done.
  rewrite (bool_decide_ext (py.str_opt_float (amount b) ≠ py.str_opt_float (amount a))
             (py.str_opt_float (amount a) ≠ py.str_opt_float (amount b))) by done.
  rewrite (bool_decide_ext (chart_account b ≠ chart_account a)
             (chart_account a ≠ chart_account b)) by done.
  rewrite (andb_comm (bool_decide (line_memo b = Some ""))).
  by rewrite (andb_comm (py.opt_bool (line_memo b))).
Qed.

(** Splitting the joined reason gives the labels back. *)
Lemma split_labels_join a b :
  mismatch_fields a b ≠ [] →
  split_labels "" (py.join ", " (mismatch_fields a b)) = mismatch_fields a b.
Proof.
  unfold mismatch_fields.
  repeat match goal with
         | |- context [if ?c then _ else _] => destruct c
         end; done.
Qed.

Lemma conflict_of_Some id a b c :
  conflict_of id a b = Some c
  ↔ mismatch_fields a b ≠ []
    ∧ c = mkConflict id (Some (BillRecord_repr a)) (Some (BillRecord_repr b))
            (py.join ", " (mismatch_fields a b)).
Proof.
  unfold conflict_of. destruct (mismatch_fields a b) as [|x l]; split.
  - done.
  - by intros [? _].
  - by intros [= <-].
  - by intros [_ ->].
Qed.

Lemma conflict_of_None id a b :
  conflict_of id a b = None ↔ mismatch_fields a b = [].
Proof. unfold conflict_of. by destruct (mismatch_fields a b). Qed.

Lemma conflict_of_labels id a b c :
  conflict_of id a b = Some c → labels c = mismatch_fields a b.
Proof.
  intros [Hne ->]%conflict_of_Some. unfold labels; simpl.
  by apply split_labels_join.
Qed.

End field_rules.

(** ** Buckets of [compare_bills] *)

Section compare_bills_buckets.
Import models comparer.
Context `{PyFloat F}.
Implicit Types (A B : list (BillRecord F)) (a b : BillRecord F).
Implicit Types (order : set_order).

(** In a list without repeated ids every record is the last with its id. *)
Lemma NoDup_last_with_id A a :
  NoDup (record_id <$> A) → a ∈ A → last_with_id A a.
Proof.
  unfold last_with_id. induction A as [|x A IH]; intros Hnd Hin.
  { by apply elem_of_nil in Hin. }
  rewrite fmap_cons in Hnd. apply NoDup_cons in Hnd as [Hx Hnd].
  assert (Hfresh : ∀ y, y ∈ A → record_id y ≠ record_id x).
  { intros y Hy Heq. apply Hx. rewrite <-Heq. by apply list_elem_of_fmap_2. }
  apply elem_of_cons in Hin as [->|Hin].
  - rewrite filter_cons_True by done.
    assert (filter (λ b, record_id b = record_id x) A = []) as ->; [|done].
    apply elem_of_nil_inv. intros y [Hy ?]%list_elem_of_filter.
    by apply (Hfresh y).
  - rewrite filter_cons_False; [by apply IH|].
    intros Heq. by apply (Hfresh a).
Qed.

Lemma last_with_id_elem_of A a : last_with_id A a → a ∈ A.
Proof. intros Ha%last_with_id_lookup. by eapply index_bills_elem_of. Qed.

Lemma elem_of_ids A a : a ∈ A → record_id a ∈ ids A.
Proof.
  intros Ha. unfold ids. apply elem_of_list_to_set. by apply list_elem_of_fmap_2.
Qed.

(** C1, as amended: when the two lists have no id in common, every record
    of the spreadsheet list that is the last with its id is in
    [excel_only], every such record of the QuickBooks list is in [qb_only],
    and there is no conflict.  In a list whose ids are pairwise distinct
    that is every record of the list. *)
Theorem compare_bills_disjoint order A B :
  ids A ## ids B →
  (∀ a, last_with_id A a → a ∈ excel_only (compare_bills order A B))
  ∧ (∀ b, last_with_id B b → b ∈ qb_only (compare_bills order A B))
  ∧ conflicts (compare_bills order A B) = []
  ∧ (NoDup (record_id <$> A) →
     ∀ a, a ∈ A → a ∈ excel_only (compare_bills order A B))
  ∧ (NoDup (record_id <$> B) →
     ∀ b, b ∈ B → b ∈ qb_only (compare_bills order A B)).
Proof.
  intros Hdisj.
  assert (Hex : ∀ a, last_with_id A a → a ∈ excel_only (compare_bills order A B)).
  { intros a Ha. apply elem_of_excel_only. split.
    - by apply last_with_id_lookup.
    - apply index_bills_None. intros Hb.
      apply (proj1 (elem_of_disjoint _ _) Hdisj (record_id a)); [|done].
      by apply elem_of_ids, last_with_id_elem_of. }
  assert (Hqb : ∀ b, last_with_id B b → b ∈ qb_only (compare_bills order A B)).
  { intros b Hb. apply elem_of_qb_only. split.
    - by apply last_with_id_lookup.
    - apply index_bills_None. intros Ha.
      apply (proj1 (elem_of_disjoint _ _) Hdisj (record_id b)); [done|].
      by apply elem_of_ids, last_with_id_elem_of. }
  repeat split; [done|done| |by auto using NoDup_last_with_id..].
  apply elem_of_nil_inv. intros c (a & b & Ha & Hb & _)%elem_of_conflicts.
  apply (proj1 (elem_of_disjoint _ _) Hdisj (Conflict_record_id c)).
  - rewrite <-dom_index_bills. apply elem_of_dom. by rewrite Ha.
  - rewrite <-dom_index_bills. apply elem_of_dom. by rewrite Hb.
Qed.

(** C6: the index of a list holds, for each id, the last record of the
    list with that id, and whatever a bucket of the report holds for an id
    comes from that last record: a record of [excel_only] or of [qb_only]
    is the last with its id in its list, and the two sides of a conflict
    are the renderings of the last records with its id. *)
Theorem last_write_wins order A B :
  (∀ id, index_bills A !! id = last (filter (λ x, record_id x = id) A))
  ∧ (∀ id, index_bills B !! id = last (filter (λ x, record_id x = id) B))
  ∧ (∀ a, a ∈ excel_only (compare_bills order A B) → last_with_id A a)
  ∧ (∀ b, b ∈ qb_only (compare_bills order A B) → last_with_id B b)
  ∧ (∀ c, c ∈ conflicts (compare_bills order A B) →
       ∃ a b, last_with_id A a ∧ last_with_id B b
              ∧ record_id a = Conflict_record_id c
              ∧ record_id b = Conflict_record_id c
              ∧ excel_name c = Some (BillRecord_repr a)
              ∧ qb_name c = Some (BillRecord_repr b)).
Proof.
  split; [by intros; apply index_bills_lookup|].
  split; [by intros; apply index_bills_lookup|].
  split; [|split].
  - intros a [Ha _]%elem_of_excel_only. by apply last_with_id_lookup.
  - intros b [Hb _]%elem_of_qb_only. by apply last_with_id_lookup.
  - intros c (a & b & Ha & Hb & Hc)%elem_of_conflicts.
    pose proof (index_bills_record_id _ _ _ Ha) as Hida.
    pose proof (index_bills_record_id _ _ _ Hb) as Hidb.
    apply conflict_of_Some in Hc as [_ Hc].
    exists a, b. rewrite !last_with_id_lookup, Hida, Hidb.
    repeat split; try done; by rewrite Hc.
Qed.

Lemma excel_only_at_swap (ed qd : gmap string (BillRecord F)) id :
  excel_only_at qd ed id = qb_only_at ed qd id.
Proof.
  unfold excel_only_at, qb_only_at. by destruct (ed !! id), (qd !! id).
Qed.

Lemma conflict_at_swap (ed qd : gmap string (BillRecord F)) id :
  conflict_at qd ed id = swap_sides <$> conflict_at ed qd id.
Proof.
  unfold conflict_at, conflict_of.
  destruct (ed !! id) as [e|], (qd !! id) as [q'|]; try done.
  rewrite (mismatch_fields_sym e q').
  by destruct (mismatch_fields e q').
Qed.

Lemma omap_ext_perm {X Y} (f g : X → option Y) (l1 l2 : list X) :
  (∀ x, f x = g x) → l1 ≡ₚ l2 → omap f l1 ≡ₚ omap g l2.
Proof.
  intros Hfg ->. assert (omap f l2 = omap g l2) as ->; [|done].
  apply list_omap_ext, Forall2_same_length_lookup. split; [done|].
  intros i x y Hx Hy. rewrite Hx in Hy. injection Hy as ->. apply Hfg.
Qed.

Lemma set_iter_swap (o1 o2 : set_order) A B :
  set_iter o2 (all_ids B A) ≡ₚ set_iter o1 (all_ids A B).
Proof.
  rewrite (set_iter_perm o2), (set_iter_perm o1). unfold all_ids.
  by rewrite (comm_L (∪)).
Qed.

(** C5: with the two lists exchanged, whatever the orders of iteration of
    the two calls, [excel_only] holds the records [qb_only] held and the
    other way round, and the conflicts are the same ones, same ids and
    same reasons, with their two sides exchanged. *)
Theorem compare_bills_swap (o1 o2 : set_order) A B :
  excel_only (compare_bills o2 B A) ≡ₚ qb_only (compare_bills o1 A B)
  ∧ qb_only (compare_bills o2 B A) ≡ₚ excel_only (compare_bills o1 A B)
  ∧ conflicts (compare_bills o2 B A)
    ≡ₚ swap_sides <$> conflicts (compare_bills o1 A B).
Proof.
  rewrite !compare_bills_buckets; simpl. split; [|split].
  - apply omap_ext_perm; [|apply set_iter_swap].
    intros id. apply excel_only_at_swap.
  - apply omap_ext_perm; [|apply set_iter_swap].
    intros id. symmetry. apply excel_only_at_swap.
  - rewrite list_fmap_omap.
    apply omap_ext_perm; [|apply set_iter_swap].
    intros id. apply conflict_at_swap.
Qed.

End compare_bills_buckets.

(** ** Field comparison of two records with one id *)

Section field_comparison.
Import models comparer.
Context `{PyFloat F}.
Implicit Types (A B : list (BillRecord F)) (a b : BillRecord F).
Implicit Types (order : set_order).

Lemma elem_of_conflicts_for order A B id c :
  c ∈ conflicts_for id (compare_bills order A B)
  ↔ c ∈ conflicts (compare_bills order A B) ∧ Conflict_record_id c = id.
Proof. unfold conflicts_for. rewrite list_elem_of_filter. tauto. Qed.

(** The memo rules stay silent when the memo fields they apply to agree. *)
Lemma memo_rules_silent a b :
  (line_memo a = Some "" → line_memo b = Some "" → memo a = memo b) →
  (nonempty (line_memo a) → nonempty (line_memo b) → line_memo a = line_memo b) →
  ¬ memo_differs a b ∧ ¬ line_memo_differs a b.
Proof.
  intros Hm Hl. split.
  - intros (? & ? & Hne). by apply Hne, Hm.
  - intros (? & ? & Hne). by apply Hne, Hl.
Qed.

(** C2: for the records [a] and [b] the two lists hold for one id, the
    report has a conflict for that id exactly when some field differs
    under the field rules; when supplier, amount and chart account are
    the same and the memo fields the memo rules apply to are the same, it
    has none. *)
Theorem conflict_iff_some_field_differs order A B a b :
  last_with_id A a → last_with_id B b → record_id a = record_id b →
  ((∃ c, c ∈ conflicts (compare_bills order A B)
         ∧ Conflict_record_id c = record_id a)
   ↔ some_field_differs a b)
  ∧ (supplier a = supplier b → amount a = amount b →
     chart_account a = chart_account b →
     (line_memo a = Some "" → line_memo b = Some "" → memo a = memo b) →
     (nonempty (line_memo a) → nonempty (line_memo b) →
      line_memo a = line_memo b) →
     conflicts_for (record_id a) (compare_bills order A B) = []).
Proof.
  intros Ha Hb Hid.
  pose proof (conflicts_for_shared order A B a b Ha Hb Hid) as Hfor. split.
  - split.
    + intros (c & Hc & Hcid).
      assert (c ∈ conflicts_for (record_id a) (compare_bills order A B)) as Hin
        by by apply elem_of_conflicts_for.
      rewrite Hfor in Hin.
      destruct (conflict_of (record_id a) a b) as [c'|] eqn:Hof;
        [|by apply elem_of_nil in Hin].
      apply conflict_of_Some in Hof as [Hne _].
      by apply mismatch_fields_nonempty.
    + intros Hd.
      destruct (conflict_of (record_id a) a b) as [c|] eqn:Hof.
      * exists c. apply elem_of_conflicts_for. rewrite Hfor. simpl.
        apply list_elem_of_singleton. done.
      * apply conflict_of_None, mismatch_fields_nil in Hof. done.
  - intros Hs Hamt Hc Hm Hl. rewrite Hfor.
    assert (conflict_of (record_id a) a b = None) as ->; [|done].
    apply conflict_of_None, mismatch_fields_nil.
    destruct (memo_rules_silent a b Hm Hl) as [Hnm Hnl].
    unfold some_field_differs, supplier_differs, amount_differs,
      chart_account_differs.
    rewrite Hs, Hamt, Hc. tauto.
Qed.

Lemma conflicts_for_labels order A B a b c :
  last_with_id A a → last_with_id B b → record_id a = record_id b →
  c ∈ conflicts_for (record_id a) (compare_bills order A B) →
  labels c = mismatch_fields a b.
Proof.
  intros Ha Hb Hid. rewrite (conflicts_for_shared order A B a b Ha Hb Hid).
  destruct (conflict_of (record_id a) a b) as [c'|] eqn:Hof; simpl.
  - intros ->%list_elem_of_singleton. by eapply conflict_of_labels.
  - by intros ?%elem_of_nil.
Qed.

Lemma conflicts_for_differs order A B a b :
  last_with_id A a → last_with_id B b → record_id a = record_id b →
  mismatch_fields a b ≠ [] →
  conflicts_for (record_id a) (compare_bills order A B)
  = [mkConflict (record_id a) (Some (BillRecord_repr a))
       (Some (BillRecord_repr b)) (py.join ", " (mismatch_fields a b))].
Proof.
  intros Ha Hb Hid Hne. rewrite (conflicts_for_shared order A B a b Ha Hb Hid).
  destruct (conflict_of (record_id a) a b) as [c|] eqn:Hof.
  - apply conflict_of_Some in Hof as [_ ->]. done.
  - by apply conflict_of_None in Hof.
Qed.

(** With the other fields the same, only the amount rule can speak. *)
Lemma mismatch_fields_amount_only a b :
  supplier a = supplier b → chart_account a = chart_account b →
  (line_memo a = Some "" → line_memo b = Some "" → memo a = memo b) →
  (nonempty (line_memo a) → nonempty (line_memo b) → line_memo a = line_memo b) →
  mismatch_fields a b
  = if bool_decide (py.str_opt_float (amount a) ≠ py.str_opt_float (amount b))
    then ["Amount mismatch"] else [].
Proof.
  intros Hs Hc Hm Hl. destruct (memo_rules_silent a b Hm Hl) as [Hnm Hnl].
  unfold mismatch_fields.
  rewrite <-memo_rule_spec in Hnm. apply not_true_is_false in Hnm as ->.
  rewrite <-line_memo_rule_spec in Hnl. apply not_true_is_false in Hnl as ->.
  rewrite (bool_decide_eq_false_2 (supplier a ≠ supplier b)) by by intros ?.
  rewrite (bool_decide_eq_false_2 (chart_account a ≠ chart_account b))
    by by intros ?.
  simpl. by rewrite app_nil_r.
Qed.

(** C3: for the records [a] and [b] the two lists hold for one id, with
    the same supplier, the same chart account and the same applicable memo
    fields: when the string forms of the two amounts differ, the report
    has one conflict for the id, its reason is "Amount mismatch" and that
    is its only label; when the string forms are the same it has no
    conflict for the id.  Only the string forms are looked at. *)
Theorem only_amount_differs order A B a b :
  last_with_id A a → last_with_id B b → record_id a = record_id b →
  supplier a = supplier b → chart_account a = chart_account b →
  (line_memo a = Some "" → line_memo b = Some "" → memo a = memo b) →
  (nonempty (line_memo a) → nonempty (line_memo b) → line_memo a = line_memo b) →
  (py.str_opt_float (amount a) ≠ py.str_opt_float (amount b) →
     conflicts_for (record_id a) (compare_bills order A B)
     = [mkConflict (record_id a) (Some (BillRecord_repr a))
          (Some (BillRecord_repr b)) "Amount mismatch"]
     ∧ ∀ c, c ∈ conflicts_for (record_id a) (compare_bills order A B) →
            labels c = ["Amount mismatch"])
  ∧ (py.str_opt_float (amount a) = py.str_opt_float (amount b) →
     conflicts_for (record_id a) (compare_bills order A B) = []).
Proof.
  intros Ha Hb Hid Hs Hc Hm Hl.
  pose proof (mismatch_fields_amount_only a b Hs Hc Hm Hl) as Hmf. split.
  - intros Hamt. rewrite bool_decide_eq_true_2 in Hmf by done. split.
    + rewrite (conflicts_for_differs order A B a b) by (by rewrite ?Hmf).
      by rewrite Hmf.
    + intros c Hin.
      by rewrite (conflicts_for_labels order A B a b c Ha Hb Hid Hin).
  - intros Hamt. rewrite bool_decide_eq_false_2 in Hmf by by intros ?.
    rewrite (conflicts_for_shared order A B a b Ha Hb Hid).
    by rewrite (proj2 (conflict_of_None (record_id a) a b) Hmf).
Qed.

(** C4: for the records [a] and [b] the two lists hold for one id:
    when both line memos are the empty string and the memos differ, the
    conflict for the id carries "Memo mismatch"; when one of the two line
    memos is not empty, no conflict for the id carries "Memo mismatch";
    and a conflict for the id carries "LineMemo mismatch" exactly when
    both line memos are not empty and differ. *)
Theorem memo_rules order A B a b :
  last_with_id A a → last_with_id B b → record_id a = record_id b →
  (line_memo a = Some "" → line_memo b = Some "" → memo a ≠ memo b →
     ∃ c, conflicts_for (record_id a) (compare_bills order A B) = [c]
          ∧ "Memo mismatch" ∈ labels c)
  ∧ (nonempty (line_memo a) ∨ nonempty (line_memo b) →
     ∀ c, c ∈ conflicts_for (record_id a) (compare_bills order A B) →
          "Memo mismatch" ∉ labels c)
  ∧ ((∃ c, c ∈ conflicts_for (record_id a) (compare_bills order A B)
           ∧ "LineMemo mismatch" ∈ labels c)
     ↔ nonempty (line_memo a) ∧ nonempty (line_memo b)
       ∧ line_memo a ≠ line_memo b).
Proof.
  intros Ha Hb Hid. split; [|split].
  - intros Hea Heb Hne.
    assert (Hin : "Memo mismatch" ∈ mismatch_fields a b)
      by by apply memo_label.
    assert (Hnil : mismatch_fields a b ≠ [])
      by (intros Hnil; rewrite Hnil in Hin; by apply elem_of_nil in Hin).
    eexists. split; [by apply conflicts_for_differs|].
    unfold labels; simpl. by rewrite split_labels_join.
  - intros Hline c Hc.
    rewrite (conflicts_for_labels order A B a b c Ha Hb Hid Hc), memo_label.
    intros (Hea & Heb & _).
    destruct Hline as [(s & Hs & ?)|(s & Hs & ?)]; congruence.
  - split.
    + intros (c & Hc & Hl).
      rewrite (conflicts_for_labels order A B a b c Ha Hb Hid Hc) in Hl.
      by apply line_memo_label in Hl.
    + intros Hd. apply (line_memo_label a b) in Hd.
      assert (Hnil : mismatch_fields a b ≠ [])
        by (intros Hnil; rewrite Hnil in Hd; by apply elem_of_nil in Hd).
      eexists. split.
      * rewrite (conflicts_for_differs order A B a b) by done. left.
      * unfold labels; simpl. by rewrite split_labels_join.
Qed.

End field_comparison.

(** ** Closed examples of the comparison *)

Section comparison_examples.
Import models comparer samples whole_float.

Ltac by_evaluation := apply (bool_decide_unpack _); vm_compute; exact I.

Lemma last_with_id_dup_last :
  last_with_id [dup_first; dup_last; acme] dup_last.
Proof. reflexivity. Qed.

Lemma compare_bills_disjoint_witness :
  ids [dup_first; dup_last; acme] ## ids [qb_rent]
  ∧ dup_last ∈ excel_only
      (compare_bills elements_order [dup_first; dup_last; acme] [qb_rent])
  ∧ qb_rent ∈ qb_only
      (compare_bills elements_order [dup_first; dup_last; acme] [qb_rent])
  ∧ conflicts
      (compare_bills elements_order [dup_first; dup_last; acme] [qb_rent]) = [].
Proof.
  assert (Hd : ids [dup_first; dup_last; acme] ## ids [qb_rent])
    by by_evaluation.
  split; [exact Hd|].
  destruct (compare_bills_disjoint elements_order _ _ Hd)
    as (Hex & Hqb & Hc & _).
  split; [apply Hex; reflexivity|].
  split; [apply Hqb; reflexivity|exact Hc].
Defined.

(** C1, as stated, fails: with two spreadsheet rows under one id and no
    id shared with QuickBooks, the earlier row is in no bucket. *)
Lemma compare_bills_disjoint_earlier_row_lost :
  ids [dup_first; dup_last] ## ids [qb_rent]
  ∧ dup_first ∈ [dup_first; dup_last]
  ∧ (dup_first ∉ excel_only
       (compare_bills elements_order [dup_first; dup_last] [qb_rent]))
  ∧ excel_only (compare_bills elements_order [dup_first; dup_last] [qb_rent])
    = [dup_last].
Proof.
  assert (He : excel_only
                 (compare_bills elements_order [dup_first; dup_last] [qb_rent])
               = [dup_last]) by (vm_compute; reflexivity).
  split; [by_evaluation|]. split; [left|]. split; [|exact He].
  rewrite He. intros Hin%list_elem_of_singleton. discriminate Hin.
Qed.

Lemma conflict_iff_some_field_differs_witness :
  last_with_id [acme] acme ∧ last_with_id [acme_corp_qb] acme_corp_qb
  ∧ record_id acme = record_id acme_corp_qb
  ∧ ((∃ c, c ∈ conflicts (compare_bills elements_order [acme] [acme_corp_qb])
           ∧ Conflict_record_id c = record_id acme)
     ↔ some_field_differs acme acme_corp_qb).
Proof.
  assert (Ha : last_with_id [acme] acme) by reflexivity.
  assert (Hb : last_with_id [acme_corp_qb] acme_corp_qb) by reflexivity.
  assert (Hid : record_id acme = record_id acme_corp_qb) by reflexivity.
  repeat (split; [assumption|]).
  exact (proj1 (conflict_iff_some_field_differs elements_order
                  [acme] [acme_corp_qb] acme acme_corp_qb Ha Hb Hid)).
Defined.

Lemma only_amount_differs_witness :
  last_with_id [acme] acme ∧ last_with_id [acme_120_qb] acme_120_qb
  ∧ record_id acme = record_id acme_120_qb
  ∧ supplier acme = supplier acme_120_qb
  ∧ chart_account acme = chart_account acme_120_qb
  ∧ (line_memo acme = Some "" → line_memo acme_120_qb = Some "" →
     memo acme = memo acme_120_qb)
  ∧ (nonempty (line_memo acme) → nonempty (line_memo acme_120_qb) →
     line_memo acme = line_memo acme_120_qb)
  ∧ reason <$> conflicts_for "1" (compare_bills elements_order [acme] [acme_120_qb])
    = ["Amount mismatch"].
Proof.
  assert (Ha : last_with_id [acme] acme) by reflexivity.
  assert (Hb : last_with_id [acme_120_qb] acme_120_qb) by reflexivity.
  assert (Hid : record_id acme = record_id acme_120_qb) by reflexivity.
  assert (Hs : supplier acme = supplier acme_120_qb) by reflexivity.
  assert (Hc : chart_account acme = chart_account acme_120_qb) by reflexivity.
  assert (Hm : line_memo acme = Some "" → line_memo acme_120_qb = Some "" →
               memo acme = memo acme_120_qb) by reflexivity.
  assert (Hl : nonempty (line_memo acme) → nonempty (line_memo acme_120_qb) →
               line_memo acme = line_memo acme_120_qb) by reflexivity.
  repeat (split; [assumption|]).
  destruct (only_amount_differs elements_order [acme] [acme_120_qb]
              acme acme_120_qb Ha Hb Hid Hs Hc Hm Hl) as [Hdiff _].
  destruct Hdiff as [-> _]; [by vm_compute|reflexivity].
Defined.

Lemma memo_rules_witness :
  last_with_id [acme] acme ∧ last_with_id [acme_memo_qb] acme_memo_qb
  ∧ record_id acme = record_id acme_memo_qb
  ∧ ∃ c, conflicts_for "1" (compare_bills elements_order [acme] [acme_memo_qb])
         = [c]
         ∧ "Memo mismatch" ∈ labels c.
Proof.
  assert (Ha : last_with_id [acme] acme) by reflexivity.
  assert (Hb : last_with_id [acme_memo_qb] acme_memo_qb) by reflexivity.
  assert (Hid : record_id acme = record_id acme_memo_qb) by reflexivity.
  repeat (split; [assumption|]).
  destruct (memo_rules elements_order [acme] [acme_memo_qb]
              acme acme_memo_qb Ha Hb Hid) as [Hmemo _].
  apply Hmemo; [reflexivity|reflexivity|discriminate].
Defined.

(** The same pair with the QuickBooks side line-level: no label at all. *)
Example line_level_side_no_memo_label :
  conflicts (compare_bills elements_order [acme] [acme_line_qb]) = [].
Proof. by vm_compute. Qed.

(** Two rows under the id 7: the index keeps the later one, and the
    conflict with the QuickBooks record of that id shows the later one. *)
Example index_keeps_later_row :
  index_bills [dup_first; dup_last] !! "7" = Some dup_last
  ∧ excel_name <$> conflicts
      (compare_bills reverse_order [dup_first; dup_last]
         [set_added_to_qb false dup_first])
    = [Some (BillRecord_repr dup_last)].
Proof. split; by vm_compute. Qed.

End comparison_examples.

(** ** The response parser *)

Section parse_response.
Import models qb_gateway.
Implicit Types (qb : quickbooks) (root response : element).

Lemma parse_response_unfold qb raw_xml root :
  ET_fromstring qb raw_xml = Ok root →
  _parse_response qb raw_xml
  = match find_statusCode root with
    | None => Raise (RuntimeError "QuickBooks response missing status information")
    | Some response =>
        match py.int (get response "statusCode" "0") with
        | None =>
            Raise (ValueError
                     ("invalid literal for int() with base 10: "
                      +:+ py.repr_str (get response "statusCode" "0")))
        | Some status_code =>
            if bool_decide (status_code ≠ 0 ∧ status_code ≠ 1)
            then Raise (RuntimeError
                          ("QuickBooks error (" +:+ pretty status_code +:+ "): "
                           +:+ get response "statusMessage" ""))
            else Ok root
        end
    end.
Proof. intros Hroot. unfold _parse_response. by rewrite Hroot. Qed.

(** C8: the parser returns the parsed response exactly when its status
    element carries the code 0 or 1; with any other code it raises a
    RuntimeError whose text ends with the status message; without a status
    element it raises too. *)
Theorem parse_response_status qb raw_xml :
  (∀ root', _parse_response qb raw_xml = Ok root' ↔
     ∃ response status_code,
       ET_fromstring qb raw_xml = Ok root'
       ∧ find_statusCode root' = Some response
       ∧ py.int (get response "statusCode" "0") = Some status_code
       ∧ (status_code = 0 ∨ status_code = 1))
  ∧ (∀ root response status_code,
       ET_fromstring qb raw_xml = Ok root →
       find_statusCode root = Some response →
       py.int (get response "statusCode" "0") = Some status_code →
       status_code ≠ 0 → status_code ≠ 1 →
       _parse_response qb raw_xml
       = Raise (RuntimeError
                  ("QuickBooks error (" +:+ pretty status_code +:+ "): "
                   +:+ get response "statusMessage" "")))
  ∧ (∀ root,
       ET_fromstring qb raw_xml = Ok root →
       find_statusCode root = None →
       _parse_response qb raw_xml
       = Raise (RuntimeError "QuickBooks response missing status information")).
Proof.
  split; [|split].
  - intros root'. split.
    + unfold _parse_response.
      destruct (ET_fromstring qb raw_xml) as [root|e] eqn:Hroot; simpl; [|done].
      destruct (find_statusCode root) as [response|] eqn:Hfind; [|done].
      destruct (py.int (get response "statusCode" "0")) as [code|] eqn:Hint;
        [|done].
      case_bool_decide as Hcode; [done|]. intros [= <-].
      exists response, code. repeat split; try done.
      destruct (decide (code = 0)) as [|H0]; [by left|].
      destruct (decide (code = 1)) as [|H1]; [by right|].
      by destruct Hcode.
    + intros (response & code & Hroot & Hfind & Hint & Hcode).
      rewrite (parse_response_unfold _ _ _ Hroot), Hfind, Hint.
      rewrite bool_decide_eq_false_2; [done|]. intros [? ?]. by destruct Hcode.
  - intros root response code Hroot Hfind Hint H0 H1.
    rewrite (parse_response_unfold _ _ _ Hroot), Hfind, Hint.
    by rewrite bool_decide_eq_true_2.
  - intros root Hroot Hfind.
    by rewrite (parse_response_unfold _ _ _ Hroot), Hfind.
Qed.

End parse_response.

Section parse_response_examples.
Import models qb_gateway samples.

Example parse_response_code_0 :
  _parse_response (qb_answering response_ok) "<QBXML/>" = Ok response_ok.
Proof. by vm_compute. Qed.

Example parse_response_code_1 :
  _parse_response (qb_answering response_warning) "<QBXML/>"
  = Ok response_warning.
Proof. by vm_compute. Qed.

Example parse_response_code_3140 :
  _parse_response (qb_answering response_error) "<QBXML/>"
  = Raise (RuntimeError "QuickBooks error (3140): Invalid reference to Vendor").
Proof. by vm_compute. Qed.

Example parse_response_no_status :
  _parse_response (qb_answering response_without_status) "<QBXML/>"
  = Raise (RuntimeError "QuickBooks response missing status information").
Proof. by vm_compute. Qed.

(** A status code that is no number is refused by [int] itself. *)
Example parse_response_code_not_a_number :
  _parse_response (qb_answering response_not_a_number) "<QBXML/>"
  = Raise (ValueError "invalid literal for int() with base 10: 'n/a'").
Proof. by vm_compute. Qed.

End parse_response_examples.

(** ** The write-back *)

Section add_bill_to_qb.
Import models qb_gateway.
Context `{PyFloat F}.
Implicit Types (qb : quickbooks) (bill : BillRecord F).




(** The call never raises. *)
Lemma add_bill_to_qb_no_raise qb bill : is_Ok (add_bill_to_qb qb bill).
Proof.
  unfold is_Ok, add_bill_to_qb.
  destruct (py.opt_bool (supplier bill)); simpl; [|by eexists].
  destruct (invalid_amount (amount bill)); [by eexists|].
  destruct (_send_qbxml qb (qbxml_of bill)); simpl; by eexists.
Qed.

(** A request goes out only for a record that passed the checks. *)
Lemma add_bill_to_qb_requests qb bill o :
  add_bill_to_qb qb bill = Ok o → requests o ≠ [] → valid bill.
Proof.
  unfold valid, add_bill_to_qb.
  destruct (py.opt_bool (supplier bill)); simpl; [|by intros [= <-]].
  destruct (invalid_amount (amount bill)); [by intros [= <-]|]. done.
Qed.

(** The loop of [main.py] marks the record whatever the call did. *)
Lemma write_back_one_marks qb bill :
  ∃ bill', main.write_back_one qb bill = Ok bill' ∧ added_to_qb bill' = true.
Proof.
  unfold main.write_back_one.
  destruct (add_bill_to_qb_no_raise qb bill) as [o ->]. simpl. by eexists.
Qed.

End add_bill_to_qb.

Section add_bill_to_qb_examples.
Import models qb_gateway samples whole_float.

(** C7, the successful write: for a record with a supplier and a positive
    amount, sent to a QuickBooks that answers with status code 0, the call
    marks the record as added and returns [None], not the record. *)
Theorem add_bill_to_qb_success_returns_None :
  valid acme
  ∧ add_bill_to_qb (qb_answering response_ok) acme
    = Ok (mkOutcome None (set_added_to_qb true acme) [qbxml_of acme]).
Proof. split; [done|]. by vm_compute. Qed.

Example add_bill_to_qb_no_supplier :
  add_bill_to_qb (qb_answering response_ok) no_supplier
  = Ok (mkOutcome (Some no_supplier) no_supplier []).
Proof. by vm_compute. Qed.

Example add_bill_to_qb_zero_amount :
  add_bill_to_qb (qb_answering response_ok) zero_amount
  = Ok (mkOutcome (Some zero_amount) zero_amount []).
Proof. by vm_compute. Qed.

Example add_bill_to_qb_unreachable :
  add_bill_to_qb qb_unreachable acme
  = Ok (mkOutcome (Some acme) acme [qbxml_of acme]).
Proof. by vm_compute. Qed.

Example add_bill_to_qb_error_status :
  add_bill_to_qb (qb_answering response_error) acme
  = Ok (mkOutcome (Some acme) acme [qbxml_of acme]).
Proof. by vm_compute. Qed.

(** In the loop of [main.py] the record without supplier ends up marked. *)
Example write_back_marks_unsent :
  main.write_back_one (qb_answering response_ok) no_supplier
  = Ok (set_added_to_qb true no_supplier).
Proof. by vm_compute. Qed.

End add_bill_to_qb_examples.

(** ** Serialising a report *)

Section to_json.
Import models.
Context {F B C : Type} `{!Dataclass F B, !Dataclass F C}.

(** The document the first [ComparisonReport.to_json] builds has, in its
    summary, the lengths of its four arrays. *)
Lemma to_json_data_summary (self : ComparisonReport_v1 B C) :
  summary_count "total_excel_only" (to_json_data self)
  = bucket_len "excel_only" (to_json_data self)
  ∧ summary_count "total_qb_only" (to_json_data self)
    = bucket_len "qb_only" (to_json_data self)
  ∧ summary_count "total_conflicts" (to_json_data self)
    = bucket_len "conflicts" (to_json_data self)
  ∧ summary_count "total_matched" (to_json_data self)
    = bucket_len "matched" (to_json_data self)
  ∧ bucket_len "excel_only" (to_json_data self)
    = Some (JInt (Z.of_nat (length (excel_only_v1 self)))).
Proof.
  unfold summary_count, bucket_len, to_json_data; simpl.
  by rewrite !length_fmap.
Qed.

End to_json.

Section to_json_shadowed.
Import models.

(** The name [ComparisonReport] ends up bound to the second class, which
    has neither the method nor the [matched] bucket. *)
Lemma namespace_ComparisonReport :
  namespace !! "ComparisonReport"
  = Some (mkClass ["excel_only"; "qb_only"; "conflicts"] []).
Proof. by vm_compute. Qed.

(** C9, on the class the module exports: a report as [compare_bills]
    builds it has no [to_json]; asking for it raises AttributeError, so no
    summary is ever written from it. *)
Theorem ComparisonReport_to_json_raises {F} (report : ComparisonReport F) :
  ComparisonReport_to_json report
  = Raise (AttributeError "'ComparisonReport' object has no attribute 'to_json'").
Proof. reflexivity. Qed.

End to_json_shadowed.

(** ** The spreadsheet reader *)

Section read_excel_data.
Import models excel_reader.
Context `{PyFloat F}.
Implicit Types (row : list (cell F)) (rows : list (list (cell F))).
Implicit Types (bill : BillRecord F) (header_index : gmap string nat).

(** What a row that yields a record looks like. *)
Lemma read_row_Some header_index row bill :
  read_row header_index row = Ok (Some bill) →
  ∃ c_parent c_child c_supplier c_memo c_date c_account amount,
    column header_index row "Parent ID" = Ok c_parent
    ∧ column header_index row "Child ID" = Ok c_child
    ∧ column header_index row "Comments" = Ok c_memo
    ∧ py.str_bool (if py.str_bool (text_of c_child)
                   then text_of c_child else text_of c_parent) = true
    ∧ bill = mkBillRecord
               (if py.str_bool (text_of c_child)
                then text_of c_child else text_of c_parent)
               (Some (text_of c_supplier)) (Some (text_of c_date))
               (Some (text_of c_account)) (Some amount)
               (Some (text_of c_memo)) (Some (text_of c_memo)) "excel" false.
Proof.
  unfold read_row, text_of.
  destruct (column header_index row "Parent ID") as [c_parent|]; [|done].
  destruct (column header_index row "Child ID") as [c_child|]; [|done].
  destruct (column header_index row "Supplier") as [c_supplier|]; [|done].
  destruct (column header_index row "Comments") as [c_memo|]; [|done].
  destruct (column header_index row "Bank Date") as [c_date|]; [|done].
  destruct (column header_index row "Tier 2 - Chart of Account")
    as [c_account|]; [|done].
  destruct (column header_index row "Invoice Amount") as [c_amount|]; [|done].
  simpl.
  match goal with
  | |- bind ?amt _ = _ → _ => destruct amt as [amount|] eqn:Hamount; [|done]
  end.
  simpl.
  match goal with
  | |- (if negb (py.str_bool ?id) then _ else _) = _ → _ =>
      destruct (py.str_bool id) eqn:Hid; simpl; [|done]
  end.
  intros [= <-].
  exists c_parent, c_child, c_supplier, c_memo, c_date, c_account, amount.
  by rewrite Hid.
Qed.

(** Every record of the loop comes from one of the rows. *)
Lemma elem_of_read_rows header_index rows bill :
  bill ∈ read_rows header_index rows →
  ∃ row, row ∈ rows ∧ read_row header_index row = Ok (Some bill).
Proof.
  unfold read_rows.
  assert (Hgen : ∀ acc,
    bill ∈ foldl (λ bills row,
                    if negb (existsb cell_bool row) then bills
                    else match read_row header_index row with
                         | Ok (Some bill) => bills ++ [bill]
                         | Ok None => bills
                         | Raise _ => bills
                         end) acc rows →
    bill ∈ acc ∨ ∃ row, row ∈ rows ∧ read_row header_index row = Ok (Some bill)).
  { induction rows as [|row rows IH]; intros acc; simpl; [by left|].
    intros Hin. apply IH in Hin as [Hin|(row' & ? & ?)].
    - destruct (negb (existsb cell_bool row)); [by left|].
      destruct (read_row header_index row) as [[bill'|]|] eqn:Hrow;
        [|by left..].
      apply elem_of_app in Hin as [?| ->%list_elem_of_singleton]; [by left|].
      right. exists row. split; [left|done].
    - right. exists row'. split; [by right|done]. }
  intros Hin. apply Hgen in Hin as [Hin|?]; [|done].
  by apply elem_of_nil in Hin.
Qed.

Lemma str_bool_true (s : string) : py.str_bool s = true ↔ s ≠ "".
Proof. by destruct s. Qed.

(** C10, as amended: every record [read_excel_data] returns comes from a
    row below the header; its [record_id] is not empty and is the text of
    the Child ID cell when that text is not empty, else the text of the
    Parent ID cell; its [memo] is the text of the Comments cell and its
    [line_memo] is its [memo].  So a row whose Comments text, blanks around
    it stripped, is not empty never yields a parent-level record. *)
Theorem read_excel_data_records rows bills bill :
  read_excel_data rows = Ok bills → bill ∈ bills →
  ∃ row0 rest row c_parent c_child c_memo,
    rows = row0 :: rest ∧ row ∈ rest
    ∧ column (header_index_of (header_row_of row0)) row "Parent ID" = Ok c_parent
    ∧ column (header_index_of (header_row_of row0)) row "Child ID" = Ok c_child
    ∧ column (header_index_of (header_row_of row0)) row "Comments" = Ok c_memo
    ∧ record_id bill ≠ ""
    ∧ record_id bill = (if py.str_bool (text_of c_child)
                        then text_of c_child else text_of c_parent)
    ∧ memo bill = Some (text_of c_memo)
    ∧ line_memo bill = memo bill
    ∧ (text_of c_memo ≠ "" → line_memo bill ≠ Some "").
Proof.
  unfold read_excel_data. destruct rows as [|row0 rest]; [done|].
  destruct (check_columns _ required_columns); simpl; [|done].
  intros [= <-] Hin.
  apply elem_of_read_rows in Hin as (row & Hrow & Hread).
  apply read_row_Some in Hread
    as (c_parent & c_child & c_supplier & c_memo & c_date & c_account & amount
        & Hp & Hc & Hm & Hid & ->).
  exists row0, rest, row, c_parent, c_child, c_memo. simpl.
  repeat split; try done.
  - by apply str_bool_true.
  - intros Hne [= Heq]. done.
Qed.

End read_excel_data.

Section read_excel_data_examples.
Import models excel_reader samples whole_float.

Lemma read_excel_data_sheet :
  read_excel_data sheet = Ok [blank_comment_bill; child_bill].
Proof. by vm_compute. Qed.

Lemma read_excel_data_records_witness :
  read_excel_data sheet = Ok [blank_comment_bill; child_bill]
  ∧ child_bill ∈ [blank_comment_bill; child_bill]
  ∧ record_id child_bill ≠ "" ∧ line_memo child_bill = memo child_bill.
Proof.
  assert (Hread : read_excel_data sheet = Ok [blank_comment_bill; child_bill])
    by (vm_compute; reflexivity).
  assert (Hin : child_bill ∈ [blank_comment_bill; child_bill])
    by (right; left).
  split; [exact Hread|]. split; [exact Hin|].
  destruct (read_excel_data_records sheet _ child_bill Hread Hin)
    as (? & ? & ? & ? & ? & ? & _ & _ & _ & _ & _ & Hid & _ & _ & Hline & _).
  split; [exact Hid|exact Hline].
Defined.

(** C10, as stated, fails: the Comments cell of the row holds a blank, so
    it is not empty, and the record read from the row has the empty
    [line_memo] of a parent-level record. *)
Lemma blank_comment_is_parent_level :
  read_excel_data sheet = Ok [blank_comment_bill; child_bill]
  ∧ blank_comment_row ∈ tail sheet
  ∧ column (header_index_of (header_row_of header)) blank_comment_row "Comments"
    = Ok (CStr " ")
  ∧ cell_bool (CStr " " : cell Z) = true
  ∧ read_row (header_index_of (header_row_of header)) blank_comment_row
    = Ok (Some blank_comment_bill)
  ∧ line_memo blank_comment_bill = Some "".
Proof.
  split; [by vm_compute|]. split; [left|].
  split; [by vm_compute|]. split; [done|]. split; [by vm_compute|done].
Qed.

End read_excel_data_examples.

(** * Further properties *)

(** ** The report as a whole *)

Section report_shape.
Import models comparer vocabulary.
Context `{PyFloat F}.
Implicit Types (A B : list (BillRecord F)) (a b : BillRecord F).
Implicit Types (order : set_order).

Lemma omap_all_None {X Y} (f : X → option Y) (l : list X) :
  (∀ x, x ∈ l → f x = None) → omap f l = [].
Proof.
  intros Hnone. apply elem_of_nil_inv. intros y (x & Hx & Hfx)%list_elem_of_omap.
  by rewrite (Hnone x Hx) in Hfx.
Qed.

Lemma mismatch_fields_same a : mismatch_fields a a = [].
Proof.
  apply mismatch_fields_nil.
  unfold some_field_differs, memo_differs, line_memo_differs, supplier_differs,
    amount_differs, chart_account_differs.
  intros [(_ & _ & ?)|[(_ & _ & ?)|[?|[?|?]]]]; done.
Qed.

(** X1: a list compared with itself gives the empty report. *)
Theorem compare_bills_same_list order A :
  compare_bills order A A = mkComparisonReport [] [] [].
Proof.
  rewrite compare_bills_buckets. f_equal.
  - apply omap_all_None. intros id _. unfold excel_only_at.
    by destruct (index_bills A !! id).
  - apply omap_all_None. intros id _. unfold qb_only_at.
    by destruct (index_bills A !! id).
  - apply omap_all_None. intros id _. unfold conflict_at, conflict_of.
    destruct (index_bills A !! id) as [a|]; [|done].
    by rewrite mismatch_fields_same.
Qed.

(** X2: the order in which the ids are met only orders the three lists. *)
Theorem compare_bills_order_irrelevant (o1 o2 : set_order) A B :
  excel_only (compare_bills o1 A B) ≡ₚ excel_only (compare_bills o2 A B)
  ∧ qb_only (compare_bills o1 A B) ≡ₚ qb_only (compare_bills o2 A B)
  ∧ conflicts (compare_bills o1 A B) ≡ₚ conflicts (compare_bills o2 A B).
Proof.
  rewrite !compare_bills_buckets; simpl.
  assert (set_iter o1 (all_ids A B) ≡ₚ set_iter o2 (all_ids A B)) as Hperm
    by by rewrite (set_iter_perm o1), (set_iter_perm o2).
  by rewrite Hperm.
Qed.

Lemma fmap_omap_filter {X Y} `{EqDecision X}
    (f : X → option Y) (g : Y → X) (l : list X) :
  (∀ x y, f x = Some y → g y = x) →
  g <$> omap f l = filter (λ x, is_Some (f x)) l.
Proof.
  intros Hfg. induction l as [|x l IH]; [done|]. csimpl.
  destruct (f x) as [y|] eqn:Hfx; csimpl.
  - rewrite filter_cons_True by by rewrite Hfx.
    by rewrite IH, (Hfg x y Hfx).
  - rewrite filter_cons_False; [done|]. rewrite Hfx. by intros [? ?].
Qed.

Lemma excel_only_ids order A B :
  record_id <$> excel_only (compare_bills order A B)
  = filter (λ id, is_Some (excel_only_at (index_bills A) (index_bills B) id))
      (set_iter order (all_ids A B)).
Proof.
  rewrite compare_bills_buckets; simpl. apply fmap_omap_filter.
  intros id a. unfold excel_only_at.
  destruct (index_bills A !! id) as [e|] eqn:He; [|done].
  destruct (index_bills B !! id); [done|]. intros [= <-].
  by eapply index_bills_record_id.
Qed.

Lemma qb_only_ids order A B :
  record_id <$> qb_only (compare_bills order A B)
  = filter (λ id, is_Some (qb_only_at (index_bills A) (index_bills B) id))
      (set_iter order (all_ids A B)).
Proof.
  rewrite compare_bills_buckets; simpl. apply fmap_omap_filter.
  intros id b. unfold qb_only_at.
  destruct (index_bills A !! id); [done|].
  destruct (index_bills B !! id) as [e|] eqn:He; [|done]. intros [= <-].
  by eapply index_bills_record_id.
Qed.

Lemma conflict_ids order A B :
  Conflict_record_id <$> conflicts (compare_bills order A B)
  = filter (λ id, is_Some (conflict_at (index_bills A) (index_bills B) id))
      (set_iter order (all_ids A B)).
Proof.
  rewrite compare_bills_buckets; simpl. apply fmap_omap_filter.
  intros id c. apply conflict_at_record_id.
Qed.

Lemma elem_of_ids_lookup A id : id ∈ ids A ↔ is_Some (index_bills A !! id).
Proof. by rewrite <-dom_index_bills, elem_of_dom. Qed.

Lemma not_elem_of_ids_lookup A id : id ∉ ids A ↔ index_bills A !! id = None.
Proof. by rewrite index_bills_None. Qed.

Lemma excel_only_at_is_Some A B id :
  is_Some (excel_only_at (index_bills A) (index_bills B) id)
  ↔ id ∈ ids A ∧ id ∉ ids B.
Proof.
  rewrite elem_of_ids_lookup, not_elem_of_ids_lookup. unfold excel_only_at.
  destruct (index_bills A !! id) as [a|], (index_bills B !! id) as [b|];
    simpl; split.
  all: intros [? ?]; done.
Qed.

Lemma qb_only_at_is_Some A B id :
  is_Some (qb_only_at (index_bills A) (index_bills B) id)
  ↔ id ∈ ids B ∧ id ∉ ids A.
Proof.
  rewrite elem_of_ids_lookup, not_elem_of_ids_lookup. unfold qb_only_at.
  destruct (index_bills A !! id) as [a|], (index_bills B !! id) as [b|];
    simpl; split.
  all: intros [? ?]; done.
Qed.

Lemma conflict_at_is_Some A B id :
  is_Some (conflict_at (index_bills A) (index_bills B) id)
  → id ∈ ids A ∧ id ∈ ids B.
Proof.
  rewrite !elem_of_ids_lookup. unfold conflict_at. intros Hc.
  destruct (index_bills A !! id), (index_bills B !! id); by destruct Hc.
Qed.

Lemma elem_of_all_ids_union A B id : id ∈ all_ids A B ↔ id ∈ ids A ∪ ids B.
Proof. unfold all_ids. by rewrite !dom_index_bills. Qed.

(** X3: each id is met once and lands in one place: no list of the report has
    an id twice; the ids of [excel_only] are those the spreadsheet list has
    and the QuickBooks list has not, those of [qb_only] the other way
    round, and the ids of the conflicts are among those both lists have. *)
Theorem buckets_by_id order A B :
  NoDup (record_id <$> excel_only (compare_bills order A B))
  ∧ NoDup (record_id <$> qb_only (compare_bills order A B))
  ∧ NoDup (Conflict_record_id <$> conflicts (compare_bills order A B))
  ∧ (∀ id, id ∈ record_id <$> excel_only (compare_bills order A B)
           ↔ id ∈ ids A ∧ id ∉ ids B)
  ∧ (∀ id, id ∈ record_id <$> qb_only (compare_bills order A B)
           ↔ id ∈ ids B ∧ id ∉ ids A)
  ∧ (∀ id, id ∈ Conflict_record_id <$> conflicts (compare_bills order A B)
           → id ∈ ids A ∧ id ∈ ids B).
Proof.
  rewrite excel_only_ids, qb_only_ids, conflict_ids.
  pose proof (NoDup_set_iter order (all_ids A B)) as Hnd.
  split; [by apply NoDup_filter|]. split; [by apply NoDup_filter|].
  split; [by apply NoDup_filter|]. split; [|split].
  - intros id. rewrite list_elem_of_filter, elem_of_set_iter,
      excel_only_at_is_Some, elem_of_all_ids_union, elem_of_union. tauto.
  - intros id. rewrite list_elem_of_filter, elem_of_set_iter,
      qb_only_at_is_Some, elem_of_all_ids_union, elem_of_union. tauto.
  - intros id [Hc _]%list_elem_of_filter. by apply conflict_at_is_Some.
Qed.

(** X4: the sizes of the three lists: as many records in [excel_only] as the
    spreadsheet list has ids of its own, as many in [qb_only] as the
    QuickBooks list has ids of its own, and at most one conflict for each
    id the two lists share. *)
Theorem bucket_sizes order A B :
  length (excel_only (compare_bills order A B)) = size (ids A ∖ ids B)
  ∧ length (qb_only (compare_bills order A B)) = size (ids B ∖ ids A)
  ∧ (length (conflicts (compare_bills order A B)) ≤ size (ids A ∩ ids B))%nat.
Proof.
  pose proof (NoDup_set_iter order (all_ids A B)) as Hnd.
  rewrite <-(length_fmap record_id (excel_only _)),
    <-(length_fmap record_id (qb_only _)),
    <-(length_fmap Conflict_record_id (conflicts _)).
  rewrite excel_only_ids, qb_only_ids, conflict_ids.
  unfold size, set_size; simpl. split; [|split].
  - apply Permutation_length, NoDup_Permutation;
      [by apply NoDup_filter|apply NoDup_elements|].
    intros id. rewrite list_elem_of_filter, elem_of_set_iter, elem_of_elements,
      excel_only_at_is_Some, elem_of_all_ids_union, elem_of_union,
      elem_of_difference. tauto.
  - apply Permutation_length, NoDup_Permutation;
      [by apply NoDup_filter|apply NoDup_elements|].
    intros id. rewrite list_elem_of_filter, elem_of_set_iter, elem_of_elements,
      qb_only_at_is_Some, elem_of_all_ids_union, elem_of_union,
      elem_of_difference. tauto.
  - apply submseteq_length, NoDup_submseteq; [by apply NoDup_filter|].
    intros id [Hc _]%list_elem_of_filter.
    apply elem_of_elements, elem_of_intersection. by apply conflict_at_is_Some.
Qed.

(** X5: what a conflict of the report says: its reason is not empty, its
    labels are some of the five, in the order of the tests, and it never
    carries both memo labels. *)
Theorem conflict_labels order A B c :
  c ∈ conflicts (compare_bills order A B) →
  reason c ≠ "" ∧ labels c ≠ [] ∧ labels c `sublist_of` all_labels
  ∧ ¬ ("Memo mismatch" ∈ labels c ∧ "LineMemo mismatch" ∈ labels c).
Proof.
  intros (a & b & _ & _ & Hc)%elem_of_conflicts.
  rewrite (conflict_of_labels _ _ _ _ Hc).
  apply conflict_of_Some in Hc as [Hne ->]. simpl.
  split; [|split; [done|split]].
  - revert Hne. unfold mismatch_fields.
    repeat match goal with
           | |- context [if ?c then _ else _] => destruct c
           end; done.
  - unfold mismatch_fields, all_labels.
    repeat match goal with
           | |- context [if ?c then _ else _] => destruct c
           end; simpl;
      repeat first [apply sublist_nil | apply sublist_skip; []
                    | apply sublist_cons].
  - rewrite memo_label, line_memo_label.
    intros [(Ha & _) ((s & Hs & Hne') & _)]. congruence.
Qed.

End report_shape.

(** ** Escaping for QBXML *)

Section escape_xml.
Import models qb_gateway vocabulary.

Lemma string_app_cons (a : ascii) (s t : string) :
  String a s +:+ t = String a (s +:+ t).
Proof. reflexivity. Qed.

Lemma string_app_nil_l (s : string) : "" +:+ s = s.
Proof. reflexivity. Qed.

Lemma string_app_nil_r (s : string) : s +:+ "" = s.
Proof. induction s as [|a s IH]; [done|]. by rewrite string_app_cons, IH. Qed.

Lemma string_app_assoc (s t u : string) : (s +:+ t) +:+ u = s +:+ (t +:+ u).
Proof. induction s as [|a s IH]; [done|]. by rewrite !string_app_cons, IH. Qed.

Lemma string_length_app (s t : string) :
  String.length (s +:+ t) = (String.length s + String.length t)%nat.
Proof. induction s as [|a s IH]; [done|]. rewrite string_app_cons. simpl. by rewrite IH. Qed.

Lemma contains_app (c : ascii) (s t : string) :
  py.contains c (s +:+ t) = py.contains c s || py.contains c t.
Proof.
  induction s as [|a s IH]; [done|]. rewrite string_app_cons. simpl.
  by rewrite IH, orb_assoc.
Qed.

Lemma replace_app (c : ascii) (by_ s t : string) :
  py.replace c by_ (s +:+ t) = py.replace c by_ s +:+ py.replace c by_ t.
Proof.
  induction s as [|a s IH]; [done|]. rewrite string_app_cons. simpl.
  rewrite IH. case_bool_decide; [by rewrite string_app_assoc|done].
Qed.

Lemma replace_other (c a : ascii) (by_ : string) :
  a ≠ c → py.replace c by_ (String a "") = String a "".
Proof. intros Hne. simpl. by rewrite bool_decide_eq_false_2. Qed.

Lemma escape_xml_app (s t : string) :
  _escape_xml (s +:+ t) = _escape_xml s +:+ _escape_xml t.
Proof. unfold _escape_xml. by rewrite !replace_app. Qed.

Lemma escape_xml_char (a : ascii) : _escape_xml (String a "") = escape_char a.
Proof.
  destruct (decide (a = "&"%char)) as [->|H1]; [reflexivity|].
  destruct (decide (a = "<"%char)) as [->|H2]; [reflexivity|].
  destruct (decide (a = ">"%char)) as [->|H3]; [reflexivity|].
  destruct (decide (a = py.dquote)) as [->|H4]; [reflexivity|].
  destruct (decide (a = py.squote)) as [->|H5]; [reflexivity|].
  unfold _escape_xml, escape_char.
  rewrite !replace_other by done. by rewrite !bool_decide_eq_false_2.
Qed.

Lemma escape_xml_chars (s : string) : _escape_xml s = escape_chars s.
Proof.
  induction s as [|a s IH]; [done|].
  change (String a s) with (String a "" +:+ s).
  by rewrite escape_xml_app, escape_xml_char, IH.
Qed.

(** The five cases of a character. *)
Lemma escape_char_cases (a : ascii) :
  (a = "&"%char ∧ escape_char a = "&amp;")
  ∨ (a = "<"%char ∧ escape_char a = "&lt;")
  ∨ (a = ">"%char ∧ escape_char a = "&gt;")
  ∨ (a = py.dquote ∧ escape_char a = "&quot;")
  ∨ (a = py.squote ∧ escape_char a = "&apos;")
  ∨ ((a ≠ "&"%char ∧ a ≠ "<"%char ∧ a ≠ ">"%char ∧ a ≠ py.dquote
      ∧ a ≠ py.squote) ∧ escape_char a = String a "").
Proof.
  destruct (decide (a = "&"%char)) as [->|H1]; [by left|].
  destruct (decide (a = "<"%char)) as [->|H2]; [by right; left|].
  destruct (decide (a = ">"%char)) as [->|H3]; [by right; right; left|].
  destruct (decide (a = py.dquote)) as [->|H4]; [by do 3 right; left|].
  destruct (decide (a = py.squote)) as [->|H5]; [by do 4 right; left|].
  do 5 right. split; [done|]. unfold escape_char.
  by rewrite !bool_decide_eq_false_2.
Qed.

(** X6: [_escape_xml] works character by character: the escape of a text is
    the escapes of its parts put together, and a single character becomes
    its entity, or stays when it is none of the five.  The ampersands of
    the entities written are not escaped again. *)
Theorem escape_xml_by_character :
  (∀ s t, _escape_xml (s +:+ t) = _escape_xml s +:+ _escape_xml t)
  ∧ (∀ a, _escape_xml (String a "")
          = if bool_decide (a = "&"%char) then "&amp;"
            else if bool_decide (a = "<"%char) then "&lt;"
            else if bool_decide (a = ">"%char) then "&gt;"
            else if bool_decide (a = py.dquote) then "&quot;"
            else if bool_decide (a = py.squote) then "&apos;"
            else String a "").
Proof. split; [apply escape_xml_app|apply escape_xml_char]. Qed.

(** X7: the escaped text has no angle bracket and no quote of either kind. *)
Theorem escape_xml_no_markup (s : string) :
  py.contains "<" (_escape_xml s) = false
  ∧ py.contains ">" (_escape_xml s) = false
  ∧ py.contains py.dquote (_escape_xml s) = false
  ∧ py.contains py.squote (_escape_xml s) = false.
Proof.
  rewrite escape_xml_chars. induction s as [|a s (IH1 & IH2 & IH3 & IH4)]; [done|].
  simpl. rewrite !contains_app, IH1, IH2, IH3, IH4, !orb_false_r.
  destruct (escape_char_cases a)
    as [[-> ->]|[[-> ->]|[[-> ->]|[[-> ->]|[[-> ->]|[(_ & ? & ? & ? & ?) ->]]]]]];
    try done.
  simpl. by rewrite !bool_decide_eq_false_2.
Qed.

Lemma escape_char_prefix (a b : ascii) (x y : string) :
  escape_char a +:+ x = escape_char b +:+ y → a = b ∧ x = y.
Proof.
  destruct (escape_char_cases a)
    as [[-> ->]|[[-> ->]|[[-> ->]|[[-> ->]|[[-> ->]|[(? & ? & ? & ? & ?) ->]]]]]];
    destruct (escape_char_cases b)
      as [[-> ->]|[[-> ->]|[[-> ->]|[[-> ->]|[[-> ->]|[(? & ? & ? & ? & ?) ->]]]]]];
    rewrite ?string_app_cons, ?string_app_nil_l; intros Heq;
    simplify_eq; done.
Qed.

Lemma escape_char_nonempty (a : ascii) (x : string) : escape_char a +:+ x ≠ "".
Proof.
  destruct (escape_char_cases a)
    as [[-> ->]|[[-> ->]|[[-> ->]|[[-> ->]|[[-> ->]|[_ ->]]]]]]; done.
Qed.

(** X8: two texts with the same escape are the same text. *)
Theorem escape_xml_inj (s t : string) :
  _escape_xml s = _escape_xml t → s = t.
Proof.
  rewrite !escape_xml_chars. revert t.
  induction s as [|a s IH]; intros [|b t]; simpl; intros Heq.
  - done.
  - symmetry in Heq. by apply escape_char_nonempty in Heq.
  - by apply escape_char_nonempty in Heq.
  - apply escape_char_prefix in Heq as [-> Heq]. by rewrite (IH t Heq).
Qed.

Lemma escape_chars_length (s : string) :
  (String.length s ≤ String.length (escape_chars s))%nat.
Proof.
  induction s as [|a s IH]; [done|]. simpl. rewrite string_length_app.
  destruct (escape_char_cases a)
    as [[-> ->]|[[-> ->]|[[-> ->]|[[-> ->]|[[-> ->]|[_ ->]]]]]]; simpl; lia.
Qed.

(** X9: the text comes back unchanged exactly when it has none of the five
    characters. *)
Theorem escape_xml_unchanged (s : string) :
  _escape_xml s = s ↔ plain_text s.
Proof.
  rewrite escape_xml_chars. unfold plain_text.
  induction s as [|a s IH]; [done|]. simpl.
  pose proof (escape_chars_length s) as Hlen.
  destruct (escape_char_cases a)
    as [[-> ->]|[[-> ->]|[[-> ->]|[[-> ->]|[[-> ->]|[(? & ? & ? & ? & ?) ->]]]]]].
  1-5: split; [|by intros (? & ? & ? & ? & ?)];
       intros Heq; apply (f_equal String.length) in Heq;
       rewrite string_length_app in Heq; simpl in Heq; lia.
  rewrite string_app_cons, string_app_nil_l.
  rewrite !bool_decide_eq_false_2 by done. simpl. rewrite <-IH.
  split; [by intros [= ->]|by intros ->].
Qed.

End escape_xml.

(** ** What a write-back changes *)

Section write_back.
Import models comparer qb_gateway qb_fetch excel_reader vocabulary.
Context `{PyFloat F}.
Implicit Types (qb : quickbooks) (bill : BillRecord F).




Lemma set_added_to_qb_twice (b1 b2 : bool) bill :
  set_added_to_qb b1 (set_added_to_qb b2 bill) = set_added_to_qb b1 bill.
Proof. done. Qed.

Lemma write_back_one_result qb bill :
  main.write_back_one qb bill = Ok (set_added_to_qb true bill).
Proof.
  unfold main.write_back_one, add_bill_to_qb.
  destruct (py.opt_bool (supplier bill)); simpl; [|done].
  destruct (invalid_amount (amount bill)); [done|].
  by destruct (_send_qbxml qb (qbxml_of bill)).
Qed.

(** X11: the loop of the script never raises and leaves every record of the
    list flagged as added, nothing else changed, whatever QuickBooks
    answered and whether or not a request was sent for the record. *)
Theorem write_back_flags_all (qb_at : nat → quickbooks) (n : nat)
    (bills : list (BillRecord F)) :
  main_script.write_back qb_at n bills = Ok (set_added_to_qb true <$> bills).
Proof.
  revert n. induction bills as [|bill bills IH]; intros n; [done|]. simpl.
  by rewrite write_back_one_result, IH.
Qed.

(** X12: the report the script hands on: the comparison of what was read with
    what was fetched, the records of [excel_only] flagged as added. *)
Theorem run_report order rows (qx : quickbooks_xml) qb_at excel_rows qb_bills :
  read_excel_data rows = Ok excel_rows →
  fetch_bills_from_qb qx = Ok qb_bills →
  main_script.run order rows qx qb_at
  = Ok (mkComparisonReport
          (set_added_to_qb true
             <$> excel_only (compare_bills order excel_rows qb_bills))
          (qb_only (compare_bills order excel_rows qb_bills))
          (conflicts (compare_bills order excel_rows qb_bills))).
Proof.
  intros Hread Hfetch. unfold main_script.run. rewrite Hread, Hfetch. simpl.
  assert (Hloop : ∀ l n, main_script.write_back qb_at n l
                         = Ok (set_added_to_qb true <$> l)).
  { induction l as [|bill l IH]; intros n; [done|]. simpl.
    by rewrite write_back_one_result, IH. }
  by rewrite Hloop.
Qed.

End write_back.

(** ** Fetching the bills *)

Section fetch_bills.
Import models comparer qb_gateway qb_fetch vocabulary.
Context `{PyFloat F}.
Implicit Types (qx : quickbooks_xml) (bill_ret line root : node).
Implicit Types (b parent : BillRecord F).

Lemma mapM_Ok {X Y} (f : X → result Y) (l : list X) (ys : list Y) :
  mapM f l = Ok ys → Forall2 (λ x y, f x = Ok y) l ys.
Proof.
  revert ys. induction l as [|x l IH]; intros ys; simpl.
  - intros [= <-]. constructor.
  - destruct (f x) as [y|] eqn:Hfx; simpl; [|done].
    destruct (mapM f l) as [ys'|]; simpl; [|done].
    intros [= <-]. constructor; [done|by apply IH].
Qed.

Lemma parent_record_Ok bill_ret parent :
  parent_record bill_ret = Ok parent →
  record_id parent = py.or_empty (findtext ["TxnID"] bill_ret)
  ∧ supplier parent = Some (py.or_empty (findtext ["VendorRef"; "FullName"] bill_ret))
  ∧ bank_date parent = Some (py.or_empty (findtext ["TxnDate"] bill_ret))
  ∧ memo parent = Some (py.or_empty (findtext ["Memo"] bill_ret))
  ∧ chart_account parent = Some "" ∧ line_memo parent = Some ""
  ∧ is_Some (amount parent)
  ∧ source parent = "quickbooks" ∧ added_to_qb parent = false.
Proof.
  unfold parent_record.
  destruct (float_or_0 (findtext ["AmountDue"] bill_ret)); simpl; [|done].
  intros [= <-]. simpl. repeat split; by eexists.
Qed.

Lemma line_record_Ok bill_ret line b :
  line_record bill_ret line = Ok b →
  record_id b = py.or_empty (findtext ["TxnLineID"] line)
  ∧ supplier b = Some (py.or_empty (findtext ["VendorRef"; "FullName"] bill_ret))
  ∧ bank_date b = Some (py.or_empty (findtext ["TxnDate"] bill_ret))
  ∧ memo b = Some (py.or_empty (findtext ["Memo"] bill_ret))
  ∧ chart_account b = Some (py.or_empty (findtext ["AccountRef"; "FullName"] line))
  ∧ line_memo b = Some (py.or_empty (findtext ["Memo"] line))
  ∧ is_Some (amount b)
  ∧ source b = "quickbooks" ∧ added_to_qb b = false.
Proof.
  unfold line_record.
  destruct (float_or_0 (findtext ["Amount"] line)); simpl; [|done].
  intros [= <-]. simpl. repeat split; by eexists.
Qed.

Lemma records_of_bill_Ok bill_ret group :
  records_of_bill bill_ret = Ok group → bill_group bill_ret group.
Proof.
  unfold records_of_bill.
  destruct (parent_record bill_ret) as [parent|] eqn:Hp; simpl; [|done].
  destruct (mapM _ _) as [lines|] eqn:Hl; simpl; [|done].
  intros [= <-]. exists parent, lines.
  apply parent_record_Ok in Hp as (Hid & Hs & Hd & Hm & Hc & Hlm & _).
  repeat split; try done.
  apply mapM_Ok in Hl. eapply Forall2_impl; [exact Hl|].
  intros line b (? & ? & ? & ? & ? & ? & _)%line_record_Ok.
  repeat split; congruence.
Qed.

Lemma fetch_bills_Ok qx bills :
  fetch_bills_from_qb qx = Ok bills →
  ∃ root groups,
    _send_qbxml_xml qx bill_query = Ok root
    ∧ mapM records_of_bill (findall "BillRet" root) = Ok groups
    ∧ bills = concat groups.
Proof.
  unfold fetch_bills_from_qb.
  destruct (_send_qbxml_xml qx bill_query) as [root|] eqn:Hsend; simpl; [|done].
  destruct (mapM _ _) as [groups|] eqn:Hmap; simpl; [|done].
  intros [= <-]. by exists root, groups.
Qed.

(** X13: the list [fetch_bills_from_qb] returns is made of one group for each
    [BillRet] of the response, in document order: the record of the bill,
    with empty chart account and empty line memo, then one record for each
    of its expense lines, each with the supplier, the date and the memo of
    the bill. *)
Theorem fetch_bills_groups qx bills :
  fetch_bills_from_qb qx = Ok bills →
  ∃ root groups,
    _send_qbxml_xml qx bill_query = Ok root
    ∧ bills = concat groups
    ∧ Forall2 bill_group (findall "BillRet" root) groups.
Proof.
  intros (root & groups & Hsend & Hmap & ->)%fetch_bills_Ok.
  exists root, groups. repeat split; try done.
  apply mapM_Ok in Hmap. eapply Forall2_impl; [exact Hmap|].
  intros bill_ret group. apply records_of_bill_Ok.
Qed.




Lemma send_qbxml_xml_status qx qbxml raw_response root response status_code :
  process qx qbxml = Ok raw_response →
  parse qx raw_response = Ok root →
  find_statusCode (element_of root) = Some response →
  py.int (get response "statusCode" "0") = Some status_code →
  _send_qbxml_xml qx qbxml
  = if bool_decide (status_code ≠ 0 ∧ status_code ≠ 1)
    then Raise (RuntimeError
                  ("QuickBooks error (" +:+ pretty status_code +:+ "): "
                   +:+ get response "statusMessage" ""))
    else Ok root.
Proof.
  intros Hproc Hparse Hfind Hint. unfold _send_qbxml_xml.
  rewrite Hproc; simpl. rewrite Hparse; simpl.
  rewrite (parse_response_unfold _ _ (element_of root))
    by (simpl; by rewrite Hparse).
  rewrite Hfind, Hint. by case_bool_decide.
Qed.

(** X15: a response whose status code is neither 0 nor 1 yields no bill at
    all: the fetch raises the error of the status check, with the code and
    the message of the response, whatever bills the response lists. *)
Theorem fetch_bills_error_status qx raw_response root response status_code :
  process qx bill_query = Ok raw_response →
  parse qx raw_response = Ok root →
  find_statusCode (element_of root) = Some response →
  py.int (get response "statusCode" "0") = Some status_code →
  status_code ≠ 0 → status_code ≠ 1 →
  fetch_bills_from_qb qx
  = Raise (RuntimeError
             ("QuickBooks error (" +:+ pretty status_code +:+ "): "
              +:+ get response "statusMessage" "")).
Proof.
  intros Hproc Hparse Hfind Hint H0 H1. unfold fetch_bills_from_qb.
  rewrite (send_qbxml_xml_status _ _ _ _ _ _ Hproc Hparse Hfind Hint).
  by rewrite bool_decide_eq_true_2.
Qed.

End fetch_bills.

(** ** More of the spreadsheet reader *)

Section reader_more.
Import models comparer excel_reader vocabulary.
Context `{PyFloat F}.
Implicit Types (row : list (cell F)) (rows : list (list (cell F))).
Implicit Types (bill a b : BillRecord F) (header_index : gmap string nat).
Implicit Types (header_row : list string).

Lemma header_index_of_snoc header_row name :
  header_index_of (header_row ++ [name])
  = <[name := length header_row]> (header_index_of header_row).
Proof.
  unfold header_index_of. rewrite imap_app, foldl_app. simpl.
  by rewrite Nat.add_0_r.
Qed.

(** X16: the index of a header name is the column where the name stands last:
    a repeated header name makes the reader take the later column. *)
Theorem header_index_last header_row name i :
  header_index_of header_row !! name = Some i
  ↔ header_row !! i = Some name
    ∧ ∀ j, header_row !! j = Some name → (j ≤ i)%nat.
Proof.
  revert i. induction header_row as [|x header_row IH] using rev_ind; intros i.
  { split; [done|]. by intros [? _]. }
  rewrite header_index_of_snoc.
  destruct (decide (x = name)) as [->|Hne].
  - rewrite lookup_insert_eq. split.
    + intros [= <-]. split.
      * by rewrite lookup_app_r, Nat.sub_diag by done.
      * intros j Hj%lookup_lt_Some. rewrite length_app in Hj. simpl in Hj. lia.
    + intros [Hi Hmax]. f_equal.
      apply lookup_lt_Some in Hi. rewrite length_app in Hi. simpl in Hi.
      assert (length header_row ≤ i)%nat; [|lia].
      apply Hmax. by rewrite lookup_app_r, Nat.sub_diag by done.
  - rewrite lookup_insert_ne by done. rewrite IH.
    assert (Hlook : ∀ j, (header_row ++ [x]) !! j = Some name
                         ↔ header_row !! j = Some name).
    { intros j. destruct (decide (j < length header_row)%nat) as [Hlt|Hge].
      - by rewrite lookup_app_l.
      - rewrite lookup_app_r by lia. rewrite (lookup_ge_None_2 header_row) by lia.
        destruct (j - length header_row)%nat as [|k]; simpl; split; try done.
        by intros [= ?]. }
    rewrite Hlook. by setoid_rewrite Hlook.
Qed.





(** One turn of the row loop. *)
Lemma read_rows_snoc header_index rows row :
  read_rows header_index (rows ++ [row])
  = read_rows header_index rows ++ read_rows header_index [row].
Proof.
  unfold read_rows. rewrite foldl_snoc. simpl.
  destruct (negb (existsb cell_bool row)); [by rewrite app_nil_r|].
  destruct (read_row header_index row) as [[bill|]|]; by rewrite ?app_nil_r.
Qed.

Lemma read_rows_app header_index rows1 rows2 :
  read_rows header_index (rows1 ++ rows2)
  = read_rows header_index rows1 ++ read_rows header_index rows2.
Proof.
  induction rows2 as [|row rows2 IH] using rev_ind.
  - by rewrite !app_nil_r.
  - by rewrite app_assoc, !read_rows_snoc, IH, app_assoc.
Qed.

Lemma read_rows_one header_index row :
  read_rows header_index [row]
  = if negb (existsb cell_bool row) then []
    else match read_row header_index row with
         | Ok (Some bill) => [bill]
         | _ => []
         end.
Proof.
  unfold read_rows; simpl. destruct (negb (existsb cell_bool row)); [done|].
  by destruct (read_row header_index row) as [[bill|]|].
Qed.

Lemma read_excel_data_Ok row0 rest bills :
  read_excel_data (row0 :: rest) = Ok bills →
  bills = read_rows (header_index_of (header_row_of row0)) rest.
Proof.
  unfold read_excel_data.
  destruct (check_columns _ required_columns); simpl; [|done]. by intros [= <-].
Qed.

Lemma read_excel_data_same_header row0 rest rest' bills :
  read_excel_data (row0 :: rest) = Ok bills →
  read_excel_data (row0 :: rest')
  = Ok (read_rows (header_index_of (header_row_of row0)) rest').
Proof.
  unfold read_excel_data.
  by destruct (check_columns _ required_columns).
Qed.

(** X18: the records come in the order of the rows: reading two runs of rows
    one after the other under a header gives the records of the first run,
    then those of the second. *)
Theorem read_excel_data_in_order row0 rows1 rows2 bills1 bills2 :
  read_excel_data (row0 :: rows1) = Ok bills1 →
  read_excel_data (row0 :: rows2) = Ok bills2 →
  read_excel_data (row0 :: rows1 ++ rows2) = Ok (bills1 ++ bills2).
Proof.
  intros H1 H2.
  rewrite (read_excel_data_same_header _ _ (rows1 ++ rows2) _ H1).
  apply read_excel_data_Ok in H1 as ->. apply read_excel_data_Ok in H2 as ->.
  by rewrite read_rows_app.
Qed.

(** X19: a row adds nothing when none of its cells is truthy, when reading it
    raises, or when it has neither child id nor parent id: the sheet reads
    as if the row were not there. *)
Theorem read_excel_data_skipped_row row0 rows1 row rows2 :
  existsb cell_bool row = false
  ∨ (∃ e, read_row (header_index_of (header_row_of row0)) row = Raise e)
  ∨ read_row (header_index_of (header_row_of row0)) row = Ok None →
  read_excel_data (row0 :: rows1 ++ row :: rows2)
  = read_excel_data (row0 :: rows1 ++ rows2).
Proof.
  intros Hskip. unfold read_excel_data.
  destruct (check_columns _ required_columns); simpl; [|done]. f_equal.
  change (row :: rows2) with ([row] ++ rows2).
  rewrite !read_rows_app, read_rows_one.
  destruct Hskip as [->|[[e ->]| ->]]; simpl; [done|..];
    by destruct (negb (existsb cell_bool row)).
Qed.

Lemma read_rows_length header_index rows :
  (length (read_rows header_index rows) ≤ length rows)%nat.
Proof.
  induction rows as [|row rows IH] using rev_ind; [done|].
  rewrite read_rows_snoc, !length_app, read_rows_one. simpl.
  destruct (negb (existsb cell_bool row)); simpl; [lia|].
  destruct (read_row header_index row) as [[bill|]|]; simpl; lia.
Qed.

(** X20: at most one record for each row below the header. *)
Theorem read_excel_data_length rows bills :
  read_excel_data rows = Ok bills → (length bills < length rows)%nat.
Proof.
  destruct rows as [|row0 rest]; [done|].
  intros ->%read_excel_data_Ok. simpl.
  pose proof (read_rows_length (header_index_of (header_row_of row0)) rest).
  lia.
Qed.

Lemma excel_record_shape rows bills a :
  read_excel_data rows = Ok bills → a ∈ bills →
  ∃ text, memo a = Some text ∧ line_memo a = Some text
          ∧ source a = "excel" ∧ added_to_qb a = false ∧ all_fields_set a.
Proof.
  destruct rows as [|row0 rest]; [done|].
  intros ->%read_excel_data_Ok (row & _ & Hrow)%elem_of_read_rows.
  apply read_row_Some in Hrow
    as (c_parent & c_child & c_supplier & c_memo & c_date & c_account & amount
        & _ & _ & _ & _ & ->).
  exists (text_of c_memo). unfold all_fields_set. simpl.
  repeat split; by eexists.
Qed.


Lemma chart_account_label a b :
  "ChartAccount mismatch" ∈ mismatch_fields a b ↔ chart_account a ≠ chart_account b.
Proof.
  rewrite elem_of_mismatch_fields. split; [|by do 4 right].
  intros [[_ ?]|[[_ ?]|[[_ ?]|[[_ ?]|[? _]]]]]; done.
Qed.

(** X22: the memo rules on a record read from the spreadsheet, whose line memo
    is its memo: against any record [b] it gets "Memo mismatch" only when
    its comment is empty, [b] has the empty line memo and a memo that is
    not empty; and with a comment it gets "LineMemo mismatch" exactly when
    [b] has a line memo that is not empty and is not that comment. *)
Theorem excel_record_memo_rules rows bills a b :
  read_excel_data rows = Ok bills → a ∈ bills →
  ("Memo mismatch" ∈ mismatch_fields a b
   ↔ memo a = Some "" ∧ line_memo b = Some "" ∧ memo b ≠ Some "")
  ∧ ("LineMemo mismatch" ∈ mismatch_fields a b
     ↔ memo a ≠ Some "" ∧ nonempty (line_memo b) ∧ line_memo b ≠ memo a).
Proof.
  intros Hread Hin.
  destruct (excel_record_shape rows bills a Hread Hin)
    as (text & Hmemo & Hline & _).
  rewrite memo_label, line_memo_label.
  unfold memo_differs, line_memo_differs, nonempty. rewrite Hmemo, Hline.
  split; split.
  - intros (-> & ? & ?). repeat split; try done; congruence.
  - intros ([= ->] & ? & ?). repeat split; try done; congruence.
  - intros ((s & [= <-] & ?) & ? & ?). repeat split; try done; congruence.
  - intros (Hne & ? & ?). split; [|split; [done|congruence]].
    exists text. split; [done|]. intros ->. done.
Qed.

(** X23: a row with a comment against a QuickBooks bill record, which has the
    empty line memo and the empty chart account: neither memo label, so the
    two memos are not compared at all, and "ChartAccount mismatch" as soon
    as the row names an account. *)
Theorem excel_row_against_bill_record rows bills a b :
  read_excel_data rows = Ok bills → a ∈ bills →
  line_memo b = Some "" → chart_account b = Some "" → memo a ≠ Some "" →
  ("Memo mismatch" ∉ mismatch_fields a b)
  ∧ ("LineMemo mismatch" ∉ mismatch_fields a b)
  ∧ ("ChartAccount mismatch" ∈ mismatch_fields a b
     ↔ chart_account a ≠ Some "").
Proof.
  intros Hread Hin Hlb Hcb Hma.
  destruct (excel_record_shape rows bills a Hread Hin)
    as (text & Hmemo & Hline & _).
  rewrite memo_label, line_memo_label, chart_account_label, Hcb.
  unfold memo_differs, line_memo_differs, nonempty.
  split; [|split; [|done]].
  - intros (Hla & _ & _). congruence.
  - intros (_ & (s & Hs & ?) & _). congruence.
Qed.

End reader_more.

(** ** Closed examples of the further properties *)

Section further_examples.
Import models comparer qb_gateway qb_fetch excel_reader vocabulary.
Import samples adapter_samples whole_float.

Lemma conflict_labels_witness :
  mkConflict "1" (Some (BillRecord_repr acme)) (Some (BillRecord_repr acme_corp_qb))
    "Supplier/Vendor mismatch"
  ∈ conflicts (compare_bills elements_order [acme] [acme_corp_qb])
  ∧ labels (mkConflict "1" (Some (BillRecord_repr acme))
              (Some (BillRecord_repr acme_corp_qb)) "Supplier/Vendor mismatch")
    `sublist_of` all_labels.
Proof.
  assert (Hin : mkConflict "1" (Some (BillRecord_repr acme))
                  (Some (BillRecord_repr acme_corp_qb)) "Supplier/Vendor mismatch"
                ∈ conflicts (compare_bills elements_order [acme] [acme_corp_qb])).
  { assert (conflicts (compare_bills elements_order [acme] [acme_corp_qb])
            = [mkConflict "1" (Some (BillRecord_repr acme))
                 (Some (BillRecord_repr acme_corp_qb)) "Supplier/Vendor mismatch"])
      as -> by (vm_compute; reflexivity).
    left. }
  split; [exact Hin|].
  exact (proj1 (proj2 (proj2 (conflict_labels elements_order _ _ _ Hin)))).
Defined.

Lemma escape_xml_inj_witness :
  _escape_xml "R&D <x>" = _escape_xml "R&D <x>" ∧ "R&D <x>" = "R&D <x>".
Proof.
  assert (Heq : _escape_xml "R&D <x>" = _escape_xml "R&D <x>") by reflexivity.
  exact (conj Heq (escape_xml_inj _ _ Heq)).
Defined.

Example escape_xml_sample :
  _escape_xml "R&D <x>" = "R&amp;D &lt;x&gt;".
Proof. reflexivity. Qed.


Lemma fetch_bills_groups_witness :
  fetch_bills_from_qb (qx_answering bill_response) = Ok fetched
  ∧ ∃ root groups,
      _send_qbxml_xml (qx_answering bill_response) bill_query = Ok root
      ∧ fetched = concat groups
      ∧ Forall2 bill_group (findall "BillRet" root) groups.
Proof.
  assert (Hfetch : fetch_bills_from_qb (qx_answering bill_response) = Ok fetched)
    by (vm_compute; reflexivity).
  exact (conj Hfetch (fetch_bills_groups _ _ Hfetch)).
Defined.


Lemma fetch_bills_error_status_witness :
  find_statusCode (element_of bill_error_response)
  = Some (Element "BillQueryRs"
            {[ "statusCode" := "3120"; "statusMessage" := "Object not found" ]}
            [element_of bill_ret])
  ∧ fetch_bills_from_qb (F:=Z) (qx_answering bill_error_response)
    = Raise (RuntimeError "QuickBooks error (3120): Object not found").
Proof.
  assert (Hfind : find_statusCode (element_of bill_error_response)
                  = Some (Element "BillQueryRs"
                            {[ "statusCode" := "3120";
                               "statusMessage" := "Object not found" ]}
                            [element_of bill_ret]))
    by (vm_compute; reflexivity).
  split; [exact Hfind|].
  refine (fetch_bills_error_status (qx_answering bill_error_response) "<QBXML/>"
            bill_error_response _ 3120 _ _ Hfind _ _ _);
    [reflexivity|reflexivity|by vm_compute|done|done].
Defined.

Lemma run_report_witness :
  read_excel_data sheet = Ok [blank_comment_bill; child_bill]
  ∧ fetch_bills_from_qb (qx_answering bill_response) = Ok fetched
  ∧ main_script.run elements_order sheet (qx_answering bill_response)
      (λ _, qb_unreachable)
    = Ok (mkComparisonReport
            (set_added_to_qb true
               <$> excel_only (compare_bills elements_order
                                 [blank_comment_bill; child_bill] fetched))
            (qb_only (compare_bills elements_order
                        [blank_comment_bill; child_bill] fetched))
            (conflicts (compare_bills elements_order
                          [blank_comment_bill; child_bill] fetched))).
Proof.
  assert (Hread : read_excel_data sheet = Ok [blank_comment_bill; child_bill])
    by (vm_compute; reflexivity).
  assert (Hfetch : fetch_bills_from_qb (qx_answering bill_response) = Ok fetched)
    by (vm_compute; reflexivity).
  exact (conj Hread (conj Hfetch
           (run_report elements_order sheet (qx_answering bill_response)
              (λ _, qb_unreachable) _ _ Hread Hfetch))).
Defined.

Lemma read_excel_data_in_order_witness :
  read_excel_data [header; blank_comment_row] = Ok [blank_comment_bill]
  ∧ read_excel_data [header; child_row] = Ok [child_bill]
  ∧ read_excel_data (header :: [blank_comment_row] ++ [child_row])
    = Ok ([blank_comment_bill] ++ [child_bill]).
Proof.
  assert (H1 : read_excel_data [header; blank_comment_row]
               = Ok [blank_comment_bill]) by (vm_compute; reflexivity).
  assert (H2 : read_excel_data [header; child_row] = Ok [child_bill])
    by (vm_compute; reflexivity).
  exact (conj H1 (conj H2 (read_excel_data_in_order _ _ _ _ _ H1 H2))).
Defined.

Lemma read_excel_data_skipped_row_witness :
  (existsb cell_bool empty_row = false
   ∨ (∃ e, read_row (header_index_of (header_row_of header)) empty_row = Raise e)
   ∨ read_row (header_index_of (header_row_of header)) empty_row = Ok None)
  ∧ read_excel_data (header :: [blank_comment_row] ++ empty_row :: [child_row])
    = read_excel_data (header :: [blank_comment_row] ++ [child_row]).
Proof.
  assert (Hskip :
    existsb cell_bool empty_row = false
    ∨ (∃ e, read_row (header_index_of (header_row_of header)) empty_row = Raise e)
    ∨ read_row (header_index_of (header_row_of header)) empty_row = Ok None)
    by (left; reflexivity).
  exact (conj Hskip (read_excel_data_skipped_row _ _ _ _ Hskip)).
Defined.

(** A row without ids, though it has other cells, is skipped as well. *)
Example read_row_without_ids :
  existsb cell_bool no_id_row = true
  ∧ read_row (header_index_of (header_row_of header)) no_id_row = Ok None.
Proof. split; by vm_compute. Qed.

Lemma read_excel_data_length_witness :
  read_excel_data sheet = Ok [blank_comment_bill; child_bill]
  ∧ (length [blank_comment_bill; child_bill] < length sheet)%nat.
Proof.
  assert (Hread : read_excel_data sheet = Ok [blank_comment_bill; child_bill])
    by (vm_compute; reflexivity).
  exact (conj Hread (read_excel_data_length _ _ Hread)).
Defined.


Lemma excel_record_memo_rules_witness :
  read_excel_data sheet = Ok [blank_comment_bill; child_bill]
  ∧ child_bill ∈ [blank_comment_bill; child_bill]
  ∧ ("LineMemo mismatch" ∈ mismatch_fields child_bill acme_line_qb
     ↔ memo child_bill ≠ Some "" ∧ nonempty (line_memo acme_line_qb)
       ∧ line_memo acme_line_qb ≠ memo child_bill).
Proof.
  assert (Hread : read_excel_data sheet = Ok [blank_comment_bill; child_bill])
    by (vm_compute; reflexivity).
  assert (Hin : child_bill ∈ [blank_comment_bill; child_bill]) by (right; left).
  exact (conj Hread (conj Hin
           (proj2 (excel_record_memo_rules _ _ _ acme_line_qb Hread Hin)))).
Defined.

Lemma excel_row_against_bill_record_witness :
  read_excel_data sheet = Ok [blank_comment_bill; child_bill]
  ∧ child_bill ∈ [blank_comment_bill; child_bill]
  ∧ line_memo qb_rent = Some "" ∧ chart_account qb_rent = Some ""
  ∧ memo child_bill ≠ Some ""
  ∧ ("Memo mismatch" ∉ mismatch_fields child_bill qb_rent).
Proof.
  assert (Hread : read_excel_data sheet = Ok [blank_comment_bill; child_bill])
    by (vm_compute; reflexivity).
  assert (Hin : child_bill ∈ [blank_comment_bill; child_bill]) by (right; left).
  assert (Hl : line_memo qb_rent = Some "") by reflexivity.
  assert (Hc : chart_account qb_rent = Some "") by reflexivity.
  assert (Hm : memo child_bill ≠ Some "") by discriminate.
  split; [exact Hread|]. split; [exact Hin|]. split; [exact Hl|].
  split; [exact Hc|]. split; [exact Hm|].
  exact (proj1 (excel_row_against_bill_record _ _ _ qb_rent Hread Hin Hl Hc Hm)).
Defined.

End further_examples.
